(** * PhysixPokitto: the fixed-point physics step of [Game.h]

    A shallow embedding of [src/Physics/Common.h], [src/Physics/Point.h]
    and the simulation part of [src/Game.h] ([randomiseObjects], [setup],
    [updateInput], [simulatePhysics]), followed by the properties of the
    integrator.

    Numbers are the internal integers of the fixed-point types, with the
    32-bit wrap-around written out. *)

From Stdlib Require Import ZArith Lia Bool List.
From stdpp Require Import list.

Local Open Scope Z_scope.

(** ** Machine integers *)

(** Conversion of a mathematical integer to [int32_t] (two's complement). *)
Definition to_int32 (z : Z) : Z := (z + 2 ^ 31) mod 2 ^ 32 - 2 ^ 31.

(** Conversion of a mathematical integer to [uint32_t]. *)
Definition to_uint32 (z : Z) : Z := z mod 2 ^ 32.

Definition is_int32 (z : Z) : Prop := - 2 ^ 31 <= z < 2 ^ 31.
Definition is_uint32 (z : Z) : Prop := 0 <= z < 2 ^ 32.

(** ** [Number = SFixed<15, 16>] *)

Module Number.

(** Modelled from the spec: the FixedPoints library ([FixedPoints.h]) is not
    among the sources.  A [Number] is a signed fixed-point scalar with 15
    integer bits, a sign bit and 16 fraction bits, stored in a 32-bit
    integer ([getInternal]); its value is [getInternal / 2^16].  The
    operations are those of the internal integer; a result that leaves the
    32 bits wraps around. *)
Record t : Set := fromInternal { getInternal : Z }.

Definition FractionSize : Z := 16.
Definition Scale : Z := 2 ^ FractionSize.

(** The smallest positive magnitude. *)
Definition Epsilon : t := fromInternal 1.

(** Construction from an integer ([Number(n)]). *)
Definition ofInt (n : Z) : t :=
  fromInternal (to_int32 (Z.shiftl n FractionSize)).

(** Construction from an integer part and a fractional numerator over
    [2^FractionSize] ([Number(integer, fraction)]). *)
Definition make (integer fraction : Z) : t :=
  fromInternal (to_int32 (Z.lor (Z.shiftl integer FractionSize) fraction)).

(** Construction from a decimal literal [num / den], as the conversion of
    [literal * Scale] to the internal integer (truncation toward zero). *)
Definition ofDecimal (num den : Z) : t :=
  fromInternal (to_int32 (Z.quot (num * Scale) den)).

Definition add (a b : t) : t :=
  fromInternal (to_int32 (getInternal a + getInternal b)).

Definition sub (a b : t) : t :=
  fromInternal (to_int32 (getInternal a - getInternal b)).

Definition neg (a : t) : t :=
  fromInternal (to_int32 (- getInternal a)).

(** The product is taken at double width and shifted back by
    [FractionSize] (an arithmetic shift: rounding toward minus infinity). *)
Definition mul (a b : t) : t :=
  fromInternal (to_int32 (Z.shiftr (getInternal a * getInternal b) FractionSize)).

Definition ltb (a b : t) : bool := getInternal a <? getInternal b.
Definition gtb (a b : t) : bool := getInternal b <? getInternal a.
Definition eqb (a b : t) : bool := getInternal a =? getInternal b.

Definition lt (a b : t) : Prop := getInternal a < getInternal b.
Definition le (a b : t) : Prop := getInternal a <= getInternal b.

(** The internal integer fits its 32 bits. *)
Definition valid (a : t) : Prop := is_int32 (getInternal a).

(** Magnitude of the value, in units of [Epsilon]. *)
Definition magnitude (a : t) : Z := Z.abs (getInternal a).

End Number.

(** ** [NumberU = UFixed<16, 16>] *)

Module NumberU.

(** Modelled from the spec: the unsigned companion of [Number], of the same
    total width, from the absent FixedPoints library. *)
Record t : Set := fromInternal { getInternal : Z }.

Definition valid (a : t) : Prop := is_uint32 (getInternal a).

End NumberU.

(** ** [Physics/Common.h] *)

(** [fromSigned]: the internal [int32_t] is handed to
    [NumberU::fromInternal], which takes a [uint32_t]. *)
Definition fromSigned (value : Number.t) : NumberU.t :=
  NumberU.fromInternal (to_uint32 (Number.getInternal value)).

(** [fromUnsigned]: the internal [uint32_t] is handed to
    [Number::fromInternal], which takes an [int32_t]. *)
Definition fromUnsigned (value : NumberU.t) : Number.t :=
  Number.fromInternal (to_int32 (NumberU.getInternal value)).

Definition square (value : Number.t) : Number.t := Number.mul value value.

Definition arrayLength {A : Type} (array : list A) : nat := length array.

(** ** [Physics/Point.h] and the vector type *)

Module Vector2.

(** Modelled from the spec: [Vector2] ([Physics/Vector.h]) is not among the
    sources; a displacement, velocity or force [{x; y}] with component-wise
    addition, negation and scaling. *)
Record t : Set := make { x : Number.t; y : Number.t }.

Definition add (a b : t) : t := make (Number.add (x a) (x b)) (Number.add (y a) (y b)).
Definition neg (a : t) : t := make (Number.neg (x a)) (Number.neg (y a)).
Definition scale (a : t) (k : Number.t) : t := make (Number.mul (x a) k) (Number.mul (y a) k).

Definition zero : t := make (Number.ofInt 0) (Number.ofInt 0).

End Vector2.

Module Point2.

Record t : Set := make { x : Number.t; y : Number.t }.

(** [operator ==] and [operator !=] of [Point.h]. *)
Definition eqb (left right : t) : bool :=
  Number.eqb (x left) (x right) && Number.eqb (y left) (y right).

Definition neqb (left right : t) : bool :=
  negb (Number.eqb (x left) (x right)) || negb (Number.eqb (y left) (y right)).

(** Modelled from the spec: [Point2::operator +=] is declared in [Point.h]
    and defined elsewhere; Point + Vector gives a Point, component-wise. *)
Definition addVector (p : t) (v : Vector2.t) : t :=
  make (Number.add (x p) (Vector2.x v)) (Number.add (y p) (Vector2.y v)).

End Point2.

(** [distanceSquared] of [Point.h]. *)
Definition distanceSquared (firstPoint secondPoint : Point2.t) : NumberU.t :=
  fromSigned
    (Number.add
       (square (Number.sub (Point2.x firstPoint) (Point2.x secondPoint)))
       (square (Number.sub (Point2.y firstPoint) (Point2.y secondPoint)))).

Module RigidBody.

(** Modelled from the spec: [RigidBody] ([Physics/RigidBody.h]) is not among
    the sources; a position and a velocity. *)
Record t : Set := make { position : Point2.t; velocity : Vector2.t }.

Definition setPosition (o : t) (p : Point2.t) : t := make p (velocity o).
Definition setVelocity (o : t) (v : Vector2.t) : t := make (position o) v.

Definition setPositionX (o : t) (n : Number.t) : t :=
  setPosition o (Point2.make n (Point2.y (position o))).
Definition setPositionY (o : t) (n : Number.t) : t :=
  setPosition o (Point2.make (Point2.x (position o)) n).
Definition setVelocityX (o : t) (n : Number.t) : t :=
  setVelocity o (Vector2.make n (Vector2.y (velocity o))).
Definition setVelocityY (o : t) (n : Number.t) : t :=
  setVelocity o (Vector2.make (Vector2.x (velocity o)) n).

(** A default-constructed body: every component zero. *)
Definition default : t :=
  make (Point2.make (Number.ofInt 0) (Number.ofInt 0)) Vector2.zero.

End RigidBody.

(** ** The collaborators of [Game]: display, buttons, [rand()] *)

Module Display.

(** The display surface, read-only configuration of the integrator:
    [Pokitto::Display::getWidth()] and [getHeight()]. *)
Record t : Set := make { getWidth : Z; getHeight : Z }.

(** Both dimensions hold a body (8 pixels) and fit a [Number]. *)
Definition fits (d : t) : Prop :=
  8 <= getWidth d <= 32767 /\ 8 <= getHeight d <= 32767.

End Display.

Module Rand.

(** The C library's [rand()] as an oracle: the sequence of its results and
    the number of calls made so far. *)
Record t : Type := make { draws : nat -> Z; cursor : nat }.

Definition rand (r : t) : Z * t :=
  (draws r (cursor r), make (draws r) (S (cursor r))).

(** [rand()] returns a non-negative [int]. *)
Definition nonneg (r : t) : Prop := forall n, 0 <= draws r n.

End Rand.

Module Buttons.

(** One frame of [Pokitto::Buttons]: [repeat(BTN_B, 1)] and [held(_, 1)]
    for the other buttons. *)
Record t : Set := make {
  repeatB : bool;
  heldA : bool;
  heldUp : bool;
  heldDown : bool;
  heldLeft : bool;
  heldRight : bool
}.

Definition none : t := make false false false false false false.

End Buttons.

(** ** [Game.h] *)

(** The tuning constants; each is a [Number] built from a decimal literal. *)
Definition CoefficientOfFriction : Number.t := Number.ofDecimal 95 100.
Definition CoefficientOfGravity : Number.t := Number.ofDecimal 5 10.
Definition CoefficientOfRestitution : Number.t := Number.ofDecimal 3 10.
Definition RestitutionThreshold : Number.t := Number.mul Number.Epsilon (Number.ofInt 16).
Definition InputForce : Number.t := Number.ofDecimal 25 100.

(** The fields of [Game].  [playerObject] is a reference to [objects[0]]:
    it is read and written as index 0 of [objects]. *)
Record Game : Set := mkGame {
  objects : list RigidBody.t;
  gravityEnabled : bool;
  gravitationalForce : Vector2.t;
  statRenderingEnabled : bool;
  debugCounter : Z
}.

Definition setObjects (g : Game) (os : list RigidBody.t) : Game :=
  mkGame os (gravityEnabled g) (gravitationalForce g) (statRenderingEnabled g) (debugCounter g).
Definition setGravityEnabled (g : Game) (b : bool) : Game :=
  mkGame (objects g) b (gravitationalForce g) (statRenderingEnabled g) (debugCounter g).
Definition setGravitationalForce (g : Game) (f : Vector2.t) : Game :=
  mkGame (objects g) (gravityEnabled g) f (statRenderingEnabled g) (debugCounter g).
Definition setStatRenderingEnabled (g : Game) (b : bool) : Game :=
  mkGame (objects g) (gravityEnabled g) (gravitationalForce g) b (debugCounter g).
Definition setDebugCounter (g : Game) (n : Z) : Game :=
  mkGame (objects g) (gravityEnabled g) (gravitationalForce g) (statRenderingEnabled g) n.

(** The member initialisers: eight default bodies, gravity off and pointing
    down, statistics shown. *)
Definition initialGame : Game :=
  mkGame (replicate 8 RigidBody.default) false
         (Vector2.make (Number.ofInt 0) CoefficientOfGravity) true 0.

(** [for(uint8_t i = 0; i < count; ++i) body(i)], started at index [i]
    with [count] rounds left, over a state [State]. *)
Fixpoint forLoop {State : Type} (count : nat) (i : nat)
  (body : nat -> State -> State) (s : State) : State :=
  match count with
  | O => s
  | S count' => forLoop count' (S i) body (body i s)
  end.

(** [RigidBody & object = objects[i]; object = f(object)]: the element is
    updated in place. *)
Definition updateAt {A : Type} (i : nat) (f : A -> A) (l : list A) : list A :=
  match l !! i with
  | Some a => <[i := f a]> l
  | None => l
  end.

(** *** [randomiseObjects] *)

(** [Number(-8 + rand() % 16, rand() % (1 << Number::FractionSize))] *)
Definition randomOffset (r : Rand.t) : Number.t * Rand.t :=
  let '(a, r) := Rand.rand r in
  let '(b, r) := Rand.rand r in
  (Number.make (-8 + Z.rem a 16) (Z.rem b (Z.shiftl 1 Number.FractionSize)), r).

(** The body of the loop of [randomiseObjects], on one object.  The calls
    of [rand()] are taken left to right. *)
Definition randomiseObject (d : Display.t) (gravityEnabled : bool)
  (st : RigidBody.t * Rand.t) : RigidBody.t * Rand.t :=
  let '(object, r) := st in
  let '(a, r) := Rand.rand r in
  let '(b, r) := Rand.rand r in
  let object :=
    RigidBody.setPosition object
      (Point2.make (Number.ofInt (Z.rem a (Display.getWidth d)))
                   (Number.ofInt (Z.rem b (Display.getHeight d)))) in
  if gravityEnabled then
    (* If gravity enabled, only affect y *)
    let '(oy, r) := randomOffset r in
    (RigidBody.setVelocityY object
       (Number.add (Vector2.y (RigidBody.velocity object)) oy), r)
  else
    (* If gravity not enabled, affect both *)
    let '(ox, r) := randomOffset r in
    let '(oy, r) := randomOffset r in
    (RigidBody.setVelocity object
       (Vector2.add (RigidBody.velocity object) (Vector2.make ox oy)), r).

Definition randomiseAt (d : Display.t) (gravityEnabled : bool) (i : nat)
  (st : list RigidBody.t * Rand.t) : list RigidBody.t * Rand.t :=
  match fst st !! i with
  | Some object =>
      let '(object', r) := randomiseObject d gravityEnabled (object, snd st) in
      (<[i := object']> (fst st), r)
  | None => st
  end.

Definition randomiseObjects (d : Display.t) (st : Game * Rand.t) : Game * Rand.t :=
  let '(g, r) := st in
  let '(os, r) :=
    forLoop (arrayLength (objects g)) 0 (randomiseAt d (gravityEnabled g)) (objects g, r) in
  (setObjects g os, r).

(** *** [setup] *)

Definition setup (d : Display.t) (st : Game * Rand.t) : Game * Rand.t :=
  let '(g, r) := randomiseObjects d st in
  let g :=
    setObjects g
      (updateAt 0 (fun playerObject =>
         RigidBody.make
           (Point2.make (Number.ofInt (Z.quot (Display.getWidth d) 2))
                        (Number.ofInt (Z.quot (Display.getHeight d) 2)))
           Vector2.zero) (objects g)) in
  (g, r).

(** *** [updateInput] *)

Definition playerForce (b : Buttons.t) : Vector2.t :=
  let f := Vector2.zero in
  let f := if Buttons.heldLeft b
           then Vector2.make (Number.add (Vector2.x f) (Number.neg InputForce)) (Vector2.y f)
           else f in
  let f := if Buttons.heldRight b
           then Vector2.make (Number.add (Vector2.x f) InputForce) (Vector2.y f)
           else f in
  let f := if Buttons.heldUp b
           then Vector2.make (Vector2.x f) (Number.add (Vector2.y f) (Number.neg InputForce))
           else f in
  let f := if Buttons.heldDown b
           then Vector2.make (Vector2.x f) (Number.add (Vector2.y f) InputForce)
           else f in
  f.

Definition updateInput (d : Display.t) (b : Buttons.t) (st : Game * Rand.t) : Game * Rand.t :=
  if Buttons.repeatB b then
    (* Input tools for playing around *)
    let st := if Buttons.heldA b then randomiseObjects d st else st in
    let '(g, r) := st in
    let g := if Buttons.heldDown b then setGravityEnabled g (negb (gravityEnabled g)) else g in
    let g := if Buttons.heldUp b
             then setGravitationalForce g (Vector2.neg (gravitationalForce g)) else g in
    let g := if Buttons.heldLeft b
             then setStatRenderingEnabled g (negb (statRenderingEnabled g)) else g in
    (g, r)
  else
    (* Input for normal object control *)
    let '(g, r) := st in
    let os :=
      updateAt 0 (fun playerObject =>
        RigidBody.setVelocity playerObject
          (Vector2.add (RigidBody.velocity playerObject) (playerForce b))) (objects g) in
    (* Emergency stop *)
    let os :=
      if Buttons.heldA b
      then updateAt 0 (fun playerObject => RigidBody.setVelocity playerObject Vector2.zero) os
      else os in
    (setObjects g os, r).

(** *** [simulatePhysics] *)

(** The body of the loop of [simulatePhysics], on one object. *)
Definition simulateObject (d : Display.t) (gravityEnabled : bool)
  (gravitationalForce : Vector2.t) (object : RigidBody.t) : RigidBody.t :=
  (* First, simulate gravity *)
  let object :=
    if gravityEnabled
    then RigidBody.setVelocity object (Vector2.add (RigidBody.velocity object) gravitationalForce)
    else object in
  (* Then, simulate friction *)
  let object :=
    if gravityEnabled
    then RigidBody.setVelocityX object
           (Number.mul (Vector2.x (RigidBody.velocity object)) CoefficientOfFriction)
    else RigidBody.setVelocity object
           (Vector2.scale (RigidBody.velocity object) CoefficientOfFriction) in
  (* Then, keep the objects onscreen *)
  let object :=
    if Number.ltb (Point2.x (RigidBody.position object)) (Number.ofInt 0)
    then RigidBody.setVelocityX (RigidBody.setPositionX object (Number.ofInt 0))
           (Number.neg (Vector2.x (RigidBody.velocity object)))
    else object in
  let object :=
    if Number.gtb (Point2.x (RigidBody.position object)) (Number.ofInt (Display.getWidth d - 8))
    then RigidBody.setVelocityX
           (RigidBody.setPositionX object (Number.ofInt (Display.getWidth d - 8)))
           (Number.neg (Vector2.x (RigidBody.velocity object)))
    else object in
  let object :=
    if gravityEnabled then
      (* If gravity is enabled, gradually have the object come to a halt *)
      let object :=
        if Number.ltb (Point2.y (RigidBody.position object)) (Number.ofInt 0)
        then
          let object := RigidBody.setPositionY object (Number.ofInt 0) in
          if Number.gtb (Vector2.y (RigidBody.velocity object)) RestitutionThreshold
          then RigidBody.setVelocityY object
                 (Number.mul (Number.neg (Vector2.y (RigidBody.velocity object)))
                             CoefficientOfRestitution)
          else RigidBody.setVelocityY object (Number.ofInt 0)
        else object in
      if Number.gtb (Point2.y (RigidBody.position object)) (Number.ofInt (Display.getHeight d - 8))
      then
        let object := RigidBody.setPositionY object (Number.ofInt (Display.getHeight d - 8)) in
        if Number.gtb (Vector2.y (RigidBody.velocity object)) RestitutionThreshold
        then RigidBody.setVelocityY object
               (Number.mul (Number.neg (Vector2.y (RigidBody.velocity object)))
                           CoefficientOfRestitution)
        else RigidBody.setVelocityY object (Number.ofInt 0)
      else object
    else
      (* If gravity isn't enabled, bounce off the y sides as well *)
      let object :=
        if Number.ltb (Point2.y (RigidBody.position object)) (Number.ofInt 0)
        then RigidBody.setVelocityY (RigidBody.setPositionY object (Number.ofInt 0))
               (Number.neg (Vector2.y (RigidBody.velocity object)))
        else object in
      if Number.gtb (Point2.y (RigidBody.position object)) (Number.ofInt (Display.getHeight d - 8))
      then RigidBody.setVelocityY
             (RigidBody.setPositionY object (Number.ofInt (Display.getHeight d - 8)))
             (Number.neg (Vector2.y (RigidBody.velocity object)))
      else object in
  (* Finally, update position using velocity *)
  RigidBody.setPosition object
    (Point2.addVector (RigidBody.position object) (RigidBody.velocity object)).

Definition simulatePhysics (d : Display.t) (g : Game) : Game :=
  setObjects g
    (forLoop (arrayLength (objects g)) 0
       (fun i => updateAt i (simulateObject d (gravityEnabled g) (gravitationalForce g)))
       (objects g)).

(** *** [loop] *)

(** [renderDisplay] prints and counts the frame; only the counter is state. *)
Definition renderDisplay (g : Game) : Game := setDebugCounter g (to_int32 (debugCounter g + 1)).

(** One frame: input, physics, drawing. *)
Definition loop (d : Display.t) (b : Buttons.t) (st : Game * Rand.t) : Game * Rand.t :=
  let '(g, r) := updateInput d b st in
  let g := simulatePhysics d g in
  let g := if statRenderingEnabled g then renderDisplay g else g in
  (g, r).

(** [step()] applied [n] times. *)
Fixpoint steps (d : Display.t) (n : nat) (g : Game) : Game :=
  match n with
  | O => g
  | S n' => steps d n' (simulatePhysics d g)
  end.

(** The frames of a run, one [Buttons.t] per frame. *)
Fixpoint run (d : Display.t) (inputs : list Buttons.t) (st : Game * Rand.t) : Game * Rand.t :=
  match inputs with
  | [] => st
  | b :: inputs' => run d inputs' (loop d b st)
  end.

(** The states the program reaches: after [setup], then frame by frame. *)
Inductive reachable (d : Display.t) : Game * Rand.t -> Prop :=
| reachable_setup : forall r,
    Rand.nonneg r -> reachable d (setup d (initialGame, r))
| reachable_loop : forall b st,
    reachable d st -> reachable d (loop d b st).

(** ** The phases of one step, and the rule of the specification *)

(** The five phases of the body of [simulatePhysics], in the order of the
    source; [simulateObject_phases] below shows that the body is their
    composition. *)
Definition applyGravity (gravityEnabled : bool) (gravitationalForce : Vector2.t)
  (object : RigidBody.t) : RigidBody.t :=
  if gravityEnabled
  then RigidBody.setVelocity object (Vector2.add (RigidBody.velocity object) gravitationalForce)
  else object.

Definition applyFriction (gravityEnabled : bool) (object : RigidBody.t) : RigidBody.t :=
  if gravityEnabled
  then RigidBody.setVelocityX object
         (Number.mul (Vector2.x (RigidBody.velocity object)) CoefficientOfFriction)
  else RigidBody.setVelocity object
         (Vector2.scale (RigidBody.velocity object) CoefficientOfFriction).

(** One horizontal or (without gravity) vertical wall pair: position
    [p] and velocity [v] of one axis against [[0, limit]]. *)
Definition bounce (limit : Z) (pv : Number.t * Number.t) : Number.t * Number.t :=
  let '(p, v) := pv in
  let '(p, v) :=
    if Number.ltb p (Number.ofInt 0) then (Number.ofInt 0, Number.neg v) else (p, v) in
  if Number.gtb p (Number.ofInt limit) then (Number.ofInt limit, Number.neg v) else (p, v).

Definition collideX (d : Display.t) (object : RigidBody.t) : RigidBody.t :=
  let '(p, v) :=
    bounce (Display.getWidth d - 8)
      (Point2.x (RigidBody.position object), Vector2.x (RigidBody.velocity object)) in
  RigidBody.setVelocityX (RigidBody.setPositionX object p) v.

Definition integrate (object : RigidBody.t) : RigidBody.t :=
  RigidBody.setPosition object
    (Point2.addVector (RigidBody.position object) (RigidBody.velocity object)).

(** Clamp of one coordinate to [[0, limit]], as the two wall tests do it
    one after the other. *)
Definition clamp (limit : Z) (p : Number.t) : Number.t :=
  if Number.ltb p (Number.ofInt 0) then
    if Number.gtb (Number.ofInt 0) (Number.ofInt limit) then Number.ofInt limit
    else Number.ofInt 0
  else if Number.gtb p (Number.ofInt limit) then Number.ofInt limit
  else p.

(** A coordinate that meets neither bound of [[0, limit]]. *)
Definition inside (limit : Z) (p : Number.t) : Prop :=
  Number.le (Number.ofInt 0) p /\ Number.le p (Number.ofInt limit).

(** A body that meets no boundary of the display. *)
Definition inBounds (d : Display.t) (object : RigidBody.t) : Prop :=
  inside (Display.getWidth d - 8) (Point2.x (RigidBody.position object)) /\
  inside (Display.getHeight d - 8) (Point2.y (RigidBody.position object)).

(** The restitution rule in the words of the specification: the magnitude
    of [velocity.y] is compared with [RestitutionThreshold]. *)
Definition restitutionRule_spec (vy : Number.t) : Number.t :=
  if Number.getInternal RestitutionThreshold <? Number.magnitude vy
  then Number.mul (Number.neg vy) CoefficientOfRestitution
  else Number.ofInt 0.

(** The restitution rule as both vertical branches of the source have it:
    [velocity.y] itself is compared with [RestitutionThreshold]. *)
Definition restitutionRule (vy : Number.t) : Number.t :=
  if Number.gtb vy RestitutionThreshold
  then Number.mul (Number.neg vy) CoefficientOfRestitution
  else Number.ofInt 0.

(** The floor and ceiling with gravity: position [p] and velocity [v] of
    the y axis against [[0, limit]]. *)
Definition settle (limit : Z) (pv : Number.t * Number.t) : Number.t * Number.t :=
  let '(p, v) := pv in
  let '(p, v) :=
    if Number.ltb p (Number.ofInt 0) then (Number.ofInt 0, restitutionRule v) else (p, v) in
  if Number.gtb p (Number.ofInt limit) then (Number.ofInt limit, restitutionRule v) else (p, v).

Definition collideY (d : Display.t) (gravityEnabled : bool) (object : RigidBody.t) : RigidBody.t :=
  let '(p, v) :=
    (if gravityEnabled then settle else bounce) (Display.getHeight d - 8)
      (Point2.y (RigidBody.position object), Vector2.y (RigidBody.velocity object)) in
  RigidBody.setVelocityY (RigidBody.setPositionY object p) v.

(** The world-level state that the physics reads, with the bodies. *)
Definition physicsState (g : Game) : list RigidBody.t * bool * Vector2.t :=
  (objects g, gravityEnabled g, gravitationalForce g).

(** [gravitationalForce] is [(0, CoefficientOfGravity)] or its negation. *)
Definition gravityVertical (g : Game) : Prop :=
  Vector2.x (gravitationalForce g) = Number.ofInt 0.

(** ** Auxiliary predicates and the worlds of the examples *)

(** Simplification of record projections over the setters only. *)
Ltac fields :=
  cbn [RigidBody.position RigidBody.velocity RigidBody.setPosition RigidBody.setVelocity
       RigidBody.setPositionX RigidBody.setPositionY RigidBody.setVelocityX
       RigidBody.setVelocityY Point2.x Point2.y Vector2.x Vector2.y
       Point2.addVector Vector2.add Vector2.scale Vector2.neg fst snd] in *.

(** Case analysis on a test of the goal that contains no other test. *)
Ltac split_if :=
  match goal with
  | |- context [if ?c then _ else _] =>
      lazymatch c with
      | context [if _ then _ else _] => fail
      | _ => destruct c eqn:?
      end
  end.

(** The velocity after the gravity and friction phases. *)
Definition velocityAfterFriction (ge : bool) (gf v : Vector2.t) : Vector2.t :=
  if ge
  then Vector2.make (Number.mul (Number.add (Vector2.x v) (Vector2.x gf)) CoefficientOfFriction)
                    (Number.add (Vector2.y v) (Vector2.y gf))
  else Vector2.make (Number.mul (Vector2.x v) CoefficientOfFriction)
                    (Number.mul (Vector2.y v) CoefficientOfFriction).

(** The low-resolution display of the device, 110 by 88 pixels. *)
Definition lowres : Display.t := Display.make 110 88.

Definition body (px py vx vy : Number.t) : RigidBody.t :=
  RigidBody.make (Point2.make px py) (Vector2.make vx vy).

(** A world whose body 1 is [o], the others at rest at the origin. *)
Definition worldWith (ge : bool) (gf : Vector2.t) (o : RigidBody.t) : Game :=
  mkGame (<[1%nat := o]> (replicate 8 RigidBody.default)) ge gf true 0.

Definition gravityDown : Vector2.t := Vector2.make (Number.ofInt 0) CoefficientOfGravity.
Definition gravityUp : Vector2.t := Vector2.neg gravityDown.

(** The sample implementation of [rand()] of the C standard, never seeded
    (so started from 1): one possible oracle. *)
Fixpoint sampleNext (n : nat) : Z :=
  match n with
  | O => 1
  | S n' => (sampleNext n' * 1103515245 + 12345) mod 2 ^ 32
  end.

Definition sampleRand : Rand.t :=
  Rand.make (fun n => (sampleNext (S n) / 65536) mod 32768) 0.

(** The worlds of the examples below. *)
Definition restBody : RigidBody.t :=
  body (Number.ofInt 50) (Number.ofInt (Display.getHeight lowres - 8 + 1))
       (Number.ofInt 0) Number.Epsilon.

Definition wallBody : RigidBody.t :=
  body (Number.ofInt (-1)) (Number.ofInt 40) (Number.ofInt 2) (Number.ofInt 0).

Definition afterSetup : Game * Rand.t := setup lowres (initialGame, sampleRand).

(** Two frames of the playing-around input: B with Down switches gravity
    on, B with Up inverts it; then one frame without input. *)
Definition pressGravityOn : Buttons.t := Buttons.make true false false true false false.
Definition pressInvert : Buttons.t := Buttons.make true false true false false false.

Definition risingWorld : Game * Rand.t :=
  run lowres [pressGravityOn; pressInvert; Buttons.none] afterSetup.

(** The world in which [step()] runs in the first frame when B and Down
    are held: gravity has just been switched on. *)
Definition gravityOnWorld : Game := fst (updateInput lowres pressGravityOn afterSetup).

(** What one multiplication by [CoefficientOfFriction] does to a velocity
    component [v], giving [v'] (internal integers, units of [Epsilon]). *)
Definition frictionStep (v v' : Number.t) : Prop :=
  let a := Number.getInternal v in
  let a' := Number.getInternal v' in
  (0 < a -> 0 <= a' < a) /\
  (a = 0 -> a' = 0) /\
  (a < 0 -> a <= a' < 0) /\
  (a <= -20 -> a < a') /\
  (-20 < a < 0 -> a' = a).

(** A body that drifts left and up by less than 20 Epsilon per frame. *)
Definition creepBody : RigidBody.t :=
  body (Number.ofInt 50) (Number.ofInt 40) (Number.fromInternal (-1)) (Number.fromInternal (-19)).

(** A body that moves right by one Epsilon per frame. *)
Definition stillBody : RigidBody.t :=
  body (Number.ofInt 50) (Number.ofInt 40) Number.Epsilon (Number.ofInt 0).

(** A random offset: at least -8 and below 8. *)
Definition isOffset (off : Number.t) : Prop :=
  Number.le (Number.ofInt (-8)) off /\ Number.lt off (Number.ofInt 8).

(** What [randomiseObjects] does to one body [o], giving [o']. *)
Definition randomised (d : Display.t) (ge : bool) (o o' : RigidBody.t) : Prop :=
  Number.le (Number.ofInt 0) (Point2.x (RigidBody.position o')) /\
  Number.lt (Point2.x (RigidBody.position o')) (Number.ofInt (Display.getWidth d)) /\
  Number.le (Number.ofInt 0) (Point2.y (RigidBody.position o')) /\
  Number.lt (Point2.y (RigidBody.position o')) (Number.ofInt (Display.getHeight d)) /\
  if ge then
    Vector2.x (RigidBody.velocity o') = Vector2.x (RigidBody.velocity o) /\
    exists off, isOffset off /\
      Vector2.y (RigidBody.velocity o') = Number.add (Vector2.y (RigidBody.velocity o)) off
  else
    exists ox oy, isOffset ox /\ isOffset oy /\
      Vector2.x (RigidBody.velocity o') = Number.add (Vector2.x (RigidBody.velocity o)) ox /\
      Vector2.y (RigidBody.velocity o') = Number.add (Vector2.y (RigidBody.velocity o)) oy.

(** The offset that [randomiseObjects] builds from two results [a], [b] of
    [rand()]: [Number(-8 + a % 16, b % (1 << Number::FractionSize))]. *)
Definition perturbation (a b : Z) : Number.t :=
  Number.make (-8 + Z.rem a 16) (Z.rem b (Z.shiftl 1 Number.FractionSize)).

(** Where the new position and the offsets of one body come from: the
    body uses the results of [rand()] number [s], [s + 1], ... of the
    sequence [draw]; the first two give the position, the following two
    (with gravity) or four (without) give the offsets, each result being
    used once.  The order of the calls inside one expression is left
    open. *)
Definition randomisedBy (d : Display.t) (ge : bool) (draw : nat -> Z) (s : nat)
  (o o' : RigidBody.t) : Prop :=
  (exists ia ib : nat,
     ia <> ib /\ (s <= ia < s + 2)%nat /\ (s <= ib < s + 2)%nat /\
     RigidBody.position o'
     = Point2.make (Number.ofInt (Z.rem (draw ia) (Display.getWidth d)))
                   (Number.ofInt (Z.rem (draw ib) (Display.getHeight d)))) /\
  if ge then
    Vector2.x (RigidBody.velocity o') = Vector2.x (RigidBody.velocity o) /\
    exists ic ie : nat,
      ic <> ie /\ (s + 2 <= ic < s + 4)%nat /\ (s + 2 <= ie < s + 4)%nat /\
      Vector2.y (RigidBody.velocity o')
      = Number.add (Vector2.y (RigidBody.velocity o)) (perturbation (draw ic) (draw ie))
  else
    exists i1 i2 i3 i4 : nat,
      (i1 <> i2 /\ i1 <> i3 /\ i1 <> i4 /\ i2 <> i3 /\ i2 <> i4 /\ i3 <> i4) /\
      ((s + 2 <= i1 < s + 6)%nat /\ (s + 2 <= i2 < s + 6)%nat /\
       (s + 2 <= i3 < s + 6)%nat /\ (s + 2 <= i4 < s + 6)%nat) /\
      Vector2.x (RigidBody.velocity o')
      = Number.add (Vector2.x (RigidBody.velocity o)) (perturbation (draw i1) (draw i2)) /\
      Vector2.y (RigidBody.velocity o')
      = Number.add (Vector2.y (RigidBody.velocity o)) (perturbation (draw i3) (draw i4)).

(** An oracle whose every result is 1. *)
Definition onesRand : Rand.t := Rand.make (fun _ => 1) 0.

(** A body well inside the display, moving right and up. *)
Definition driftBody : RigidBody.t :=
  body (Number.ofInt 50) (Number.ofInt 40) (Number.ofInt 3) (Number.ofInt (-2)).

(** Two worlds with the same bodies and gravity, but different rendering
    state. *)
Definition driftWorld : Game := worldWith false gravityDown driftBody.
Definition driftWorldNoStats : Game :=
  mkGame (objects driftWorld) false gravityDown false 7.

(** The display and a body with the two axes exchanged. *)
Definition transposeDisplay (d : Display.t) : Display.t :=
  Display.make (Display.getHeight d) (Display.getWidth d).

Definition transposeBody (o : RigidBody.t) : RigidBody.t :=
  body (Point2.y (RigidBody.position o)) (Point2.x (RigidBody.position o))
       (Vector2.y (RigidBody.velocity o)) (Vector2.x (RigidBody.velocity o)).

(** A body at rest inside the display, and a world of eight of them. *)
Definition parkedBody : RigidBody.t :=
  body (Number.ofInt 50) (Number.ofInt 40) (Number.ofInt 0) (Number.ofInt 0).

Definition parkedWorld : Game :=
  mkGame (replicate 8 parkedBody) false gravityDown true 0.

(** A body that falls through the bottom bound at 3 pixels per frame. *)
Definition fallingBody : RigidBody.t :=
  body (Number.ofInt 50) (Number.ofInt 81) (Number.ofInt 0) (Number.ofInt 3).

(** Without B: Left and Right held together; A held with Down and Left. *)
Definition pressLeftRight : Buttons.t := Buttons.make false false false false true true.
Definition pressStop : Buttons.t := Buttons.make false true false true true false.

(** The shape every world of the program has. *)
Definition wellShaped (g : Game) : Prop :=
  length (objects g) = 8%nat /\
  (gravitationalForce g = gravityDown \/ gravitationalForce g = gravityUp).

(** ** Machine integers: basic facts *)

Lemma to_int32_small (z : Z) : is_int32 z -> to_int32 z = z.
Proof.
  unfold is_int32, to_int32. intros H.
  rewrite Z.mod_small; lia.
Qed.

Lemma to_int32_range (z : Z) : is_int32 (to_int32 z).
Proof.
  unfold is_int32, to_int32.
  pose proof (Z.mod_pos_bound (z + 2 ^ 31) (2 ^ 32) ltac:(lia)). lia.
Qed.

Lemma to_uint32_range (z : Z) : is_uint32 (to_uint32 z).
Proof.
  unfold is_uint32, to_uint32. apply Z.mod_pos_bound. lia.
Qed.

Lemma to_int32_to_uint32 (z : Z) : to_int32 (to_uint32 z) = to_int32 z.
Proof.
  unfold to_int32, to_uint32.
  rewrite Zplus_mod_idemp_l. reflexivity.
Qed.

Lemma to_uint32_testbit (z i : Z) :
  0 <= i < 32 -> Z.testbit (to_uint32 z) i = Z.testbit z i.
Proof.
  intros Hi. unfold to_uint32.
  apply Z.mod_pow2_bits_low. lia.
Qed.

Lemma ofInt_internal (n : Z) :
  -32768 <= n <= 32767 -> Number.getInternal (Number.ofInt n) = n * 65536.
Proof.
  intros Hn. unfold Number.ofInt, Number.FractionSize. cbn [Number.getInternal].
  rewrite Z.shiftl_mul_pow2 by lia.
  apply to_int32_small. unfold is_int32. lia.
Qed.


(** ** The loops *)

Lemma forLoop_updateAt {A : Type} (f : A -> A) (suf pre : list A) :
  forLoop (length suf) (length pre) (fun i => updateAt i f) (pre ++ suf)
  = pre ++ map f suf.
Proof.
  revert pre. induction suf as [| a suf IH]; intros pre.
  - reflexivity.
  - cbn [length forLoop map].
    assert (Hupd : updateAt (length pre) f (pre ++ a :: suf) = (pre ++ [f a]) ++ suf).
    { unfold updateAt.
      rewrite lookup_app_r by lia.
      replace (length pre - length pre)%nat with 0%nat by lia. cbn.
      rewrite insert_app_r_alt by lia.
      replace (length pre - length pre)%nat with 0%nat by lia. cbn.
      rewrite <- app_assoc. reflexivity. }
    rewrite Hupd.
    replace (S (length pre)) with (length (pre ++ [f a])).
    + rewrite IH. rewrite <- app_assoc. reflexivity.
    + rewrite length_app. cbn. lia.
Qed.

Lemma simulatePhysics_objects (d : Display.t) (g : Game) :
  objects (simulatePhysics d g)
  = map (simulateObject d (gravityEnabled g) (gravitationalForce g)) (objects g).
Proof.
  unfold simulatePhysics, arrayLength. cbn [objects setObjects].
  apply (forLoop_updateAt _ (objects g) []).
Qed.

Lemma simulatePhysics_lookup (d : Display.t) (g : Game) (i : nat) :
  objects (simulatePhysics d g) !! i
  = simulateObject d (gravityEnabled g) (gravitationalForce g) <$> (objects g !! i).
Proof.
  rewrite simulatePhysics_objects. apply list_lookup_fmap.
Qed.

Lemma simulateObject_phases (d : Display.t) (ge : bool) (gf : Vector2.t) (o : RigidBody.t) :
  simulateObject d ge gf o
  = integrate (collideY d ge (collideX d (applyFriction ge (applyGravity ge gf o)))).
Proof.
  destruct o as [[px py] [vx vy]], gf as [gx gy].
  unfold simulateObject, integrate, collideY, collideX, applyFriction, applyGravity,
    settle, bounce, restitutionRule.
  destruct ge; fields; repeat (split_if; fields); try reflexivity; try congruence.
Qed.

(** One step of a body, axis by axis. *)
Lemma simulateObject_axes (d : Display.t) (ge : bool) (gf : Vector2.t) (o : RigidBody.t) :
  let v1 := velocityAfterFriction ge gf (RigidBody.velocity o) in
  let bx := bounce (Display.getWidth d - 8) (Point2.x (RigidBody.position o), Vector2.x v1) in
  let by_ := (if ge then settle else bounce) (Display.getHeight d - 8)
               (Point2.y (RigidBody.position o), Vector2.y v1) in
  simulateObject d ge gf o
  = RigidBody.make
      (Point2.make (Number.add (fst bx) (snd bx)) (Number.add (fst by_) (snd by_)))
      (Vector2.make (snd bx) (snd by_)).
Proof.
  rewrite simulateObject_phases.
  destruct o as [[px py] [vx vy]], gf as [gx gy].
  unfold integrate, collideY, collideX, applyFriction, applyGravity, velocityAfterFriction.
  destruct ge; fields; cbv zeta.
  - destruct (bounce _ _) as [p v]; fields.
    destruct (settle _ _) as [q w]; fields. reflexivity.
  - destruct (bounce (Display.getWidth d - 8) _) as [p v]; fields.
    destruct (bounce (Display.getHeight d - 8) _) as [q w]; fields. reflexivity.
Qed.

(** *** The walls *)

Section Walls.

(** One axis of the display: positions from 0 to [limit]. *)
Variable limit : Z.
Hypothesis limit_fits : 0 <= limit <= 32767.

Lemma bounce_position (p v : Number.t) :
  fst (bounce limit (p, v)) = clamp limit p.
Proof.
  unfold bounce, clamp. repeat (split_if; fields); reflexivity.
Qed.

Lemma settle_position (p v : Number.t) :
  fst (settle limit (p, v)) = clamp limit p.
Proof.
  unfold settle, clamp. repeat (split_if; fields); reflexivity.
Qed.

Lemma clamp_inside (p : Number.t) : inside limit (clamp limit p).
Proof.
  unfold clamp, inside, Number.ltb, Number.gtb, Number.le.
  rewrite !ofInt_internal by lia.
  repeat (split_if; rewrite ?ofInt_internal by lia); lia.
Qed.

Lemma bounce_inside (p v : Number.t) :
  inside limit p -> bounce limit (p, v) = (p, v).
Proof.
  intros [H0 H1]. unfold bounce, Number.ltb, Number.gtb, Number.le in *.
  rewrite !ofInt_internal in * by lia.
  destruct (Z.ltb_spec (Number.getInternal p) (0 * 65536)); [lia |].
  destruct (Z.ltb_spec (limit * 65536) (Number.getInternal p)); [lia | reflexivity].
Qed.

Lemma bounce_low (p v : Number.t) :
  Number.lt p (Number.ofInt 0) ->
  bounce limit (p, v) = (Number.ofInt 0, Number.neg v).
Proof.
  intros H0. unfold bounce, Number.ltb, Number.gtb, Number.lt in *.
  rewrite !ofInt_internal in * by lia.
  destruct (Z.ltb_spec (Number.getInternal p) (0 * 65536)); [| lia].
  rewrite !ofInt_internal by lia.
  destruct (Z.ltb_spec (limit * 65536) (0 * 65536)); [lia | reflexivity].
Qed.

Lemma settle_low (p v : Number.t) :
  Number.lt p (Number.ofInt 0) ->
  settle limit (p, v) = (Number.ofInt 0, restitutionRule v).
Proof.
  intros H0. unfold settle, Number.ltb, Number.gtb, Number.lt in *.
  rewrite !ofInt_internal in * by lia.
  destruct (Z.ltb_spec (Number.getInternal p) (0 * 65536)); [| lia].
  rewrite !ofInt_internal by lia.
  destruct (Z.ltb_spec (limit * 65536) (0 * 65536)); [lia | reflexivity].
Qed.

Lemma settle_high (p v : Number.t) :
  Number.lt (Number.ofInt limit) p ->
  settle limit (p, v) = (Number.ofInt limit, restitutionRule v).
Proof.
  intros H0. unfold settle, Number.ltb, Number.gtb, Number.lt in *.
  rewrite !ofInt_internal in * by lia.
  destruct (Z.ltb_spec (Number.getInternal p) (0 * 65536)); [lia |].
  destruct (Z.ltb_spec (limit * 65536) (Number.getInternal p)); [reflexivity | lia].
Qed.

End Walls.

(** The rule of the source and the rule of the specification agree on
    every velocity that is not below [-RestitutionThreshold]. *)
Lemma restitutionRule_agrees (vy : Number.t) :
  - 16 <= Number.getInternal vy -> restitutionRule vy = restitutionRule_spec vy.
Proof.
  intros H. unfold restitutionRule, restitutionRule_spec, Number.gtb, Number.magnitude.
  change (Number.getInternal RestitutionThreshold) with 16.
  destruct (Z.ltb_spec 16 (Number.getInternal vy)), (Z.ltb_spec 16 (Z.abs (Number.getInternal vy)));
    try reflexivity; lia.
Qed.

(** ** Reinterpretation between [Number] and [NumberU] *)

(** C9: [fromSigned] followed by [fromUnsigned] gives back every [Number],
    and [fromSigned v] has, bit for bit, the 32 bits of [v]: the conversion
    reinterprets the internal integer and is no numeric cast. *)
Theorem fromSigned_preserves_bits (v : Number.t) :
  Number.valid v ->
  fromUnsigned (fromSigned v) = v /\
  NumberU.valid (fromSigned v) /\
  (forall i, 0 <= i < 32 ->
     Z.testbit (NumberU.getInternal (fromSigned v)) i = Z.testbit (Number.getInternal v) i).
Proof.
  destruct v as [z]. unfold Number.valid, fromUnsigned, fromSigned.
  cbn [Number.getInternal NumberU.getInternal]. intros Hz.
  split; [| split].
  - rewrite to_int32_to_uint32, to_int32_small by exact Hz. reflexivity.
  - apply to_uint32_range.
  - intros i Hi. apply to_uint32_testbit, Hi.
Qed.

Lemma fromSigned_preserves_bits_witness :
  Number.valid (Number.ofInt (-3)) /\
  fromUnsigned (fromSigned (Number.ofInt (-3))) = Number.ofInt (-3).
Proof.
  assert (H : Number.valid (Number.ofInt (-3))).
  { unfold Number.valid, is_int32. vm_compute. split; [discriminate | reflexivity]. }
  split; [exact H | exact (proj1 (fromSigned_preserves_bits (Number.ofInt (-3)) H))].
Defined.

(** ** Frame of the step *)

Lemma simulatePhysics_frame (d : Display.t) (g : Game) :
  gravityEnabled (simulatePhysics d g) = gravityEnabled g /\
  gravitationalForce (simulatePhysics d g) = gravitationalForce g /\
  statRenderingEnabled (simulatePhysics d g) = statRenderingEnabled g /\
  debugCounter (simulatePhysics d g) = debugCounter g.
Proof. repeat split. Qed.

Lemma steps_S (d : Display.t) (n : nat) (g : Game) :
  steps d (S n) g = simulatePhysics d (steps d n g).
Proof.
  revert g. induction n as [| n IH]; intros g.
  - reflexivity.
  - change (steps d (S (S n)) g) with (steps d (S n) (simulatePhysics d g)).
    rewrite IH. reflexivity.
Qed.

Lemma steps_gravityEnabled (d : Display.t) (n : nat) (g : Game) :
  gravityEnabled (steps d n g) = gravityEnabled g.
Proof.
  revert g. induction n as [| n IH]; intros g.
  - reflexivity.
  - cbn [steps]. rewrite IH. reflexivity.
Qed.

(** C10: any number of calls of [step()] leaves [gravityEnabled],
    [gravitationalForce] and [statRenderingEnabled] as they were (and the
    frame counter and the number of bodies too): only the bodies change. *)
Theorem step_changes_only_bodies (d : Display.t) (n : nat) (g : Game) :
  gravityEnabled (steps d n g) = gravityEnabled g /\
  gravitationalForce (steps d n g) = gravitationalForce g /\
  statRenderingEnabled (steps d n g) = statRenderingEnabled g /\
  debugCounter (steps d n g) = debugCounter g /\
  length (objects (steps d n g)) = length (objects g).
Proof.
  induction n as [| n IH].
  - repeat split.
  - rewrite steps_S.
    destruct (simulatePhysics_frame d (steps d n g)) as (E1 & E2 & E3 & E4).
    destruct IH as (I1 & I2 & I3 & I4 & I5).
    rewrite E1, E2, E3, E4, simulatePhysics_objects, length_map.
    repeat split; assumption.
Qed.

(** ** Friction *)

(** C5: in each step, for every body, the friction phase comes after the
    gravity phase and before the walls; with gravity it multiplies only
    [velocity.x] by [CoefficientOfFriction] and leaves [velocity.y] as the
    gravity phase left it, without gravity it multiplies both components.
    The coefficient is 0.95 truncated to 16 fraction bits. *)
Theorem friction_by_gravity_mode (d : Display.t) (g : Game) :
  (100 * Number.getInternal CoefficientOfFriction <= 95 * Number.Scale
     < 100 * (Number.getInternal CoefficientOfFriction + 1)) /\
  objects (simulatePhysics d g)
  = map (fun o =>
           let v := RigidBody.velocity
                      (applyGravity (gravityEnabled g) (gravitationalForce g) o) in
           let v' :=
             if gravityEnabled g
             then Vector2.make (Number.mul (Vector2.x v) CoefficientOfFriction) (Vector2.y v)
             else Vector2.make (Number.mul (Vector2.x v) CoefficientOfFriction)
                               (Number.mul (Vector2.y v) CoefficientOfFriction) in
           integrate
             (collideY d (gravityEnabled g)
                (collideX d (RigidBody.make (RigidBody.position o) v'))))
        (objects g).
Proof.
  split.
  - vm_compute. split; [discriminate | reflexivity].
  - rewrite simulatePhysics_objects. apply map_ext. intros o.
    rewrite simulateObject_phases. cbv zeta.
    do 3 f_equal.
    unfold applyFriction, applyGravity.
    destruct (gravityEnabled g), o as [p [vx vy]]; reflexivity.
Qed.

(** ** The walls and the final integration *)

Lemma lookup_step (d : Display.t) (g : Game) (i : nat) (o : RigidBody.t) :
  objects g !! i = Some o ->
  objects (simulatePhysics d g) !! i
  = Some (simulateObject d (gravityEnabled g) (gravitationalForce g) o).
Proof.
  intros H. rewrite simulatePhysics_lookup, H. reflexivity.
Qed.

(** C2, as stated, fails: under the default downward gravity the body at
    [displayHeight - 8 + 1] with [velocity.y = Epsilon] leaves the step with
    [velocity.y = -9831 Epsilon], because gravity is added before the
    threshold test. *)
Lemma rest_convergence_counterexample :
  RigidBody.position restBody
    = Point2.make (Number.ofInt 50) (Number.ofInt (Display.getHeight lowres - 8 + 1)) /\
  Vector2.y (RigidBody.velocity restBody) = Number.Epsilon /\
  Number.lt Number.Epsilon RestitutionThreshold /\
  objects (worldWith true gravityDown restBody) !! 1%nat = Some restBody /\
  (exists o',
     objects (simulatePhysics lowres (worldWith true gravityDown restBody)) !! 1%nat = Some o' /\
     Vector2.y (RigidBody.velocity o') = Number.fromInternal (-9831) /\
     Vector2.y (RigidBody.velocity o') <> Number.ofInt 0).
Proof.
  repeat split; try reflexivity.
  eexists. split; [vm_compute; reflexivity |].
  split; [reflexivity | discriminate].
Qed.

(** C2, amended: with gravity enabled, a body at
    [position.y = displayHeight - 8 + 1] whose [velocity.y], once the
    gravity of the step is added, does not exceed [RestitutionThreshold]
    leaves one step with [velocity.y = 0] exactly. *)
Theorem rest_convergence_after_gravity (d : Display.t) (g : Game) (i : nat) (o : RigidBody.t) :
  Display.fits d ->
  gravityEnabled g = true ->
  objects g !! i = Some o ->
  Point2.y (RigidBody.position o) = Number.ofInt (Display.getHeight d - 8 + 1) ->
  Number.le (Number.add (Vector2.y (RigidBody.velocity o)) (Vector2.y (gravitationalForce g)))
            RestitutionThreshold ->
  exists o',
    objects (simulatePhysics d g) !! i = Some o' /\
    Vector2.y (RigidBody.velocity o') = Number.ofInt 0.
Proof.
  intros [_ Hh] Hge Hlook Hpos Hv.
  eexists. split; [apply lookup_step, Hlook |].
  rewrite simulateObject_axes, Hge. fields. cbv zeta.
  unfold velocityAfterFriction. fields.
  rewrite Hpos, settle_high.
  - fields. unfold restitutionRule, Number.gtb.
    unfold Number.le in Hv.
    destruct (Z.ltb_spec (Number.getInternal RestitutionThreshold)
                (Number.getInternal
                   (Number.add (Vector2.y (RigidBody.velocity o))
                      (Vector2.y (gravitationalForce g))))); [lia | reflexivity].
  - lia.
  - unfold Number.lt. rewrite !ofInt_internal by lia. lia.
Qed.

Lemma rest_convergence_after_gravity_witness :
  exists o',
    objects (simulatePhysics lowres (worldWith true gravityUp restBody)) !! 1%nat = Some o' /\
    Vector2.y (RigidBody.velocity o') = Number.ofInt 0.
Proof.
  apply (rest_convergence_after_gravity lowres (worldWith true gravityUp restBody) 1 restBody).
  - unfold Display.fits. simpl. lia.
  - reflexivity.
  - reflexivity.
  - reflexivity.
  - unfold Number.le. vm_compute. discriminate.
Defined.

(** C3, as stated, fails: friction acts before the wall and the position
    is integrated after it, so the body at [position.x = -1] with
    [velocity.x = 2] ends the step at [position.x = velocity.x =
    -124518 Epsilon] (about -1.9), not at [0] and [-2]. *)
Lemma elastic_bounce_counterexample :
  Point2.x (RigidBody.position wallBody) = Number.ofInt (-1) /\
  Vector2.x (RigidBody.velocity wallBody) = Number.ofInt 2 /\
  objects (worldWith false gravityDown wallBody) !! 1%nat = Some wallBody /\
  (exists o',
     objects (simulatePhysics lowres (worldWith false gravityDown wallBody)) !! 1%nat = Some o' /\
     Point2.x (RigidBody.position o') = Number.fromInternal (-124518) /\
     Vector2.x (RigidBody.velocity o') = Number.fromInternal (-124518) /\
     Point2.x (RigidBody.position o') <> Number.ofInt 0 /\
     Vector2.x (RigidBody.velocity o') <> Number.ofInt (-2)).
Proof.
  repeat split; try reflexivity.
  eexists. split; [vm_compute; reflexivity |].
  repeat split; try reflexivity; discriminate.
Qed.

(** C3, amended: for a body with [position.x = -1] and [velocity.x = 2],
    in either gravity mode, one step clamps [position.x] to [0], leaves
    [velocity.x = -(2 * CoefficientOfFriction)] (friction, then the sign
    flip, no restitution) and then integrates, so that
    [position.x = 0 + velocity.x]; both are [-124518 Epsilon]. *)
Theorem elastic_bounce_after_friction (d : Display.t) (g : Game) (i : nat) (o : RigidBody.t) :
  Display.fits d ->
  gravityVertical g ->
  objects g !! i = Some o ->
  Point2.x (RigidBody.position o) = Number.ofInt (-1) ->
  Vector2.x (RigidBody.velocity o) = Number.ofInt 2 ->
  exists o',
    objects (simulatePhysics d g) !! i = Some o' /\
    Vector2.x (RigidBody.velocity o')
      = Number.neg (Number.mul (Number.ofInt 2) CoefficientOfFriction) /\
    Point2.x (RigidBody.position o')
      = Number.add (Number.ofInt 0) (Vector2.x (RigidBody.velocity o')) /\
    Vector2.x (RigidBody.velocity o') = Number.fromInternal (-124518).
Proof.
  intros [Hw _] Hgf Hlook Hpos Hvel.
  eexists. split; [apply lookup_step, Hlook |].
  rewrite simulateObject_axes. fields. cbv zeta.
  assert (Hv1 : Vector2.x (velocityAfterFriction (gravityEnabled g) (gravitationalForce g)
                             (RigidBody.velocity o))
                = Number.mul (Number.ofInt 2) CoefficientOfFriction).
  { unfold velocityAfterFriction. unfold gravityVertical in Hgf.
    destruct (gravityEnabled g); fields; rewrite Hvel, ?Hgf; reflexivity. }
  rewrite Hv1, Hpos, bounce_low.
  - fields. repeat split; reflexivity.
  - lia.
  - unfold Number.lt. rewrite !ofInt_internal by lia. lia.
Qed.

Lemma elastic_bounce_after_friction_witness :
  exists o',
    objects (simulatePhysics lowres (worldWith true gravityDown wallBody)) !! 1%nat = Some o' /\
    Vector2.x (RigidBody.velocity o')
      = Number.neg (Number.mul (Number.ofInt 2) CoefficientOfFriction) /\
    Point2.x (RigidBody.position o')
      = Number.add (Number.ofInt 0) (Vector2.x (RigidBody.velocity o')) /\
    Vector2.x (RigidBody.velocity o') = Number.fromInternal (-124518).
Proof.
  apply (elastic_bounce_after_friction lowres (worldWith true gravityDown wallBody) 1 wallBody).
  - unfold Display.fits. simpl. lia.
  - reflexivity.
  - reflexivity.
  - reflexivity.
  - reflexivity.
Defined.

(** ** Reachable states *)

Lemma sampleRand_nonneg : Rand.nonneg sampleRand.
Proof.
  intros n. cbn [sampleRand Rand.draws].
  apply Z.mod_pos_bound. lia.
Qed.

Lemma reachable_run (d : Display.t) (inputs : list Buttons.t) (st : Game * Rand.t) :
  reachable d st -> reachable d (run d inputs st).
Proof.
  revert st. induction inputs as [| b inputs IH]; intros st Hst.
  - exact Hst.
  - cbn [run]. apply IH. apply reachable_loop, Hst.
Qed.

Lemma reachable_afterSetup : reachable lowres afterSetup.
Proof. apply reachable_setup, sampleRand_nonneg. Qed.

Lemma updateInput_gravityVertical (d : Display.t) (b : Buttons.t) (st : Game * Rand.t) :
  gravityVertical (fst st) -> gravityVertical (fst (updateInput d b st)).
Proof.
  destruct st as [g r]. unfold gravityVertical, updateInput, randomiseObjects. cbn [fst].
  intros H.
  destruct (forLoop _ _ _ _) as [os' r'].
  destruct (Buttons.repeatB b), (Buttons.heldA b), (Buttons.heldDown b),
    (Buttons.heldUp b), (Buttons.heldLeft b);
    cbn [fst gravitationalForce setObjects setGravityEnabled setGravitationalForce
         setStatRenderingEnabled Vector2.neg Vector2.x];
    rewrite ?H; reflexivity.
Qed.

Lemma loop_gravityVertical (d : Display.t) (b : Buttons.t) (st : Game * Rand.t) :
  gravityVertical (fst st) -> gravityVertical (fst (loop d b st)).
Proof.
  intros H. apply (updateInput_gravityVertical d b) in H.
  unfold loop. destruct (updateInput d b st) as [g r]. cbn [fst] in *.
  destruct (statRenderingEnabled (simulatePhysics d g)); exact H.
Qed.

(** [gravitationalForce] stays vertical in every state the program
    reaches. *)
Lemma reachable_gravityVertical (d : Display.t) (st : Game * Rand.t) :
  reachable d st -> gravityVertical (fst st).
Proof.
  induction 1 as [r Hr | b st Hst IH].
  - unfold setup, randomiseObjects.
    destruct (forLoop _ _ _ _) as [os' r']. reflexivity.
  - apply loop_gravityVertical, IH.
Qed.

(** ** Boundary containment *)

(** C4, as stated, fails: after [setup] with the sample generator (gravity
    off), body 6 stands at [x = 104], beyond [displayWidth - 8 = 102]; the
    step clamps it to 102, flips its leftward velocity and then adds it, so
    the body ends the step at [x = 7094744 Epsilon] (about 108.3).  Body 2
    leaves the same step at [y = -153546 Epsilon] (about -2.3). *)
Lemma boundary_containment_counterexample :
  reachable lowres afterSetup /\
  gravityEnabled (fst afterSetup) = false /\
  objects (fst afterSetup) !! 6%nat
    = Some (body (Number.ofInt 104) (Number.ofInt 37)
                 (Number.fromInternal (-431656)) (Number.fromInternal 277332)) /\
  objects (fst afterSetup) !! 2%nat
    = Some (body (Number.ofInt 64) (Number.ofInt 4)
                 (Number.fromInternal (-441209)) (Number.fromInternal (-437569))) /\
  (exists o',
     objects (simulatePhysics lowres (fst afterSetup)) !! 6%nat = Some o' /\
     Point2.x (RigidBody.position o') = Number.fromInternal 7094744 /\
     ~ inside (Display.getWidth lowres - 8) (Point2.x (RigidBody.position o'))) /\
  (exists o',
     objects (simulatePhysics lowres (fst afterSetup)) !! 2%nat = Some o' /\
     Point2.y (RigidBody.position o') = Number.fromInternal (-153546) /\
     ~ inside (Display.getHeight lowres - 8) (Point2.y (RigidBody.position o'))).
Proof.
  split; [exact reachable_afterSetup |].
  split; [reflexivity |].
  split; [vm_compute; reflexivity |].
  split; [vm_compute; reflexivity |].
  split.
  - eexists. split; [vm_compute; reflexivity |].
    split; [reflexivity |].
    intros [_ H]. vm_compute in H. apply H. reflexivity.
  - eexists. split; [vm_compute; reflexivity |].
    split; [reflexivity |].
    intros [H _]. vm_compute in H. apply H. reflexivity.
Qed.

(** C4, amended: on a display that holds a body, for every world state,
    [step()] brings every body's [position.x] into
    [[0, displayWidth - 8]] (and, without gravity, its [position.y] into
    [[0, displayHeight - 8]]) before the final integration; after
    [step()] the position is that clamped coordinate plus the body's new
    velocity. *)
Theorem boundary_containment_before_integration
  (d : Display.t) (g : Game) (i : nat) (o' : RigidBody.t) :
  Display.fits d ->
  objects (simulatePhysics d g) !! i = Some o' ->
  exists o,
    objects g !! i = Some o /\
    inside (Display.getWidth d - 8)
           (clamp (Display.getWidth d - 8) (Point2.x (RigidBody.position o))) /\
    Point2.x (RigidBody.position o')
      = Number.add (clamp (Display.getWidth d - 8) (Point2.x (RigidBody.position o)))
                   (Vector2.x (RigidBody.velocity o')) /\
    (gravityEnabled g = false ->
     inside (Display.getHeight d - 8)
            (clamp (Display.getHeight d - 8) (Point2.y (RigidBody.position o))) /\
     Point2.y (RigidBody.position o')
       = Number.add (clamp (Display.getHeight d - 8) (Point2.y (RigidBody.position o)))
                    (Vector2.y (RigidBody.velocity o'))).
Proof.
  intros [Hw Hh] Hlook.
  rewrite simulatePhysics_lookup in Hlook.
  destruct (objects g !! i) as [o |] eqn:Ho; [| discriminate].
  cbn in Hlook. injection Hlook as <-.
  exists o. split; [reflexivity |].
  rewrite simulateObject_axes. fields. cbv zeta.
  rewrite bounce_position.
  split; [apply clamp_inside; lia |].
  split; [reflexivity |].
  intros Hge. rewrite Hge, bounce_position.
  split; [apply clamp_inside; lia | reflexivity].
Qed.

Lemma boundary_containment_before_integration_witness :
  exists o,
    objects (worldWith false gravityDown wallBody) !! 1%nat = Some o /\
    inside (Display.getWidth lowres - 8)
           (clamp (Display.getWidth lowres - 8) (Point2.x (RigidBody.position o))).
Proof.
  destruct (boundary_containment_before_integration lowres
              (worldWith false gravityDown wallBody) 1
              (simulateObject lowres false gravityDown wallBody))
    as (o & Ho & Hin & _).
  - unfold Display.fits. simpl. lia.
  - apply lookup_step. reflexivity.
  - exists o. split; assumption.
Defined.

(** ** Restitution *)

(** C1, as stated, fails: in a first frame that switches gravity on, body 5
    stands at [y = 81], below the bottom bound 80, and moves upward; its
    [velocity.y] at the boundary test is -275845 Epsilon, of magnitude far
    above [RestitutionThreshold = 16 Epsilon].  The step sets [velocity.y]
    to 0, where the magnitude rule asks for the rebound 82750 Epsilon. *)
Lemma restitution_magnitude_counterexample :
  reachable lowres afterSetup /\
  gravityEnabled gravityOnWorld = true /\
  gravitationalForce gravityOnWorld = gravityDown /\
  objects gravityOnWorld !! 5%nat
    = Some (body (Number.ofInt 54) (Number.ofInt 81)
                 (Number.fromInternal 153174) (Number.fromInternal (-308613))) /\
  Number.lt (Number.ofInt (Display.getHeight lowres - 8)) (Number.ofInt 81) /\
  Number.add (Number.fromInternal (-308613)) (Vector2.y gravityDown)
    = Number.fromInternal (-275845) /\
  Number.getInternal RestitutionThreshold < Number.magnitude (Number.fromInternal (-275845)) /\
  Number.mul (Number.neg (Number.fromInternal (-275845))) CoefficientOfRestitution
    = Number.fromInternal 82750 /\
  restitutionRule_spec (Number.fromInternal (-275845)) = Number.fromInternal 82750 /\
  (exists o',
     objects (simulatePhysics lowres gravityOnWorld) !! 5%nat = Some o' /\
     Point2.y (RigidBody.position o') = Number.ofInt (Display.getHeight lowres - 8) /\
     Vector2.y (RigidBody.velocity o') = Number.ofInt 0 /\
     Vector2.y (RigidBody.velocity o') <> Number.fromInternal 82750).
Proof.
  split; [exact reachable_afterSetup |].
  repeat (split; [vm_compute; reflexivity |]).
  eexists. split; [vm_compute; reflexivity |].
  repeat split; try reflexivity; discriminate.
Qed.

(** C1, amended: with gravity enabled, on a display that holds a body, let
    [v] be [velocity.y] at the boundary test (after the gravity of the
    step).  A body below the bottom bound is clamped to it and leaves the
    step with [velocity.y = -v * CoefficientOfRestitution] if [v] itself
    (signed) exceeds [RestitutionThreshold], and with [velocity.y = 0]
    otherwise.  A body above the top bound with
    [v >= -RestitutionThreshold] is clamped to 0 and treated by the same
    rule, which there is the magnitude rule.  In both cases the final
    integration then adds the new velocity to the clamped position. *)
Theorem restitution_by_signed_velocity (d : Display.t) (g : Game) (i : nat) (o : RigidBody.t) :
  Display.fits d ->
  gravityEnabled g = true ->
  objects g !! i = Some o ->
  exists o',
    objects (simulatePhysics d g) !! i = Some o' /\
    let v := Number.add (Vector2.y (RigidBody.velocity o)) (Vector2.y (gravitationalForce g)) in
    (Number.lt (Number.ofInt (Display.getHeight d - 8)) (Point2.y (RigidBody.position o)) ->
     Vector2.y (RigidBody.velocity o')
       = (if Number.gtb v RestitutionThreshold
          then Number.mul (Number.neg v) CoefficientOfRestitution
          else Number.ofInt 0) /\
     Point2.y (RigidBody.position o')
       = Number.add (Number.ofInt (Display.getHeight d - 8)) (Vector2.y (RigidBody.velocity o'))) /\
    (Number.lt (Point2.y (RigidBody.position o)) (Number.ofInt 0) ->
     Number.le (Number.neg RestitutionThreshold) v ->
     Vector2.y (RigidBody.velocity o')
       = (if Number.gtb v RestitutionThreshold
          then Number.mul (Number.neg v) CoefficientOfRestitution
          else Number.ofInt 0) /\
     Vector2.y (RigidBody.velocity o') = restitutionRule_spec v /\
     Point2.y (RigidBody.position o')
       = Number.add (Number.ofInt 0) (Vector2.y (RigidBody.velocity o'))).
Proof.
  intros [_ Hh] Hge Hlook.
  eexists. split; [apply lookup_step, Hlook |].
  rewrite simulateObject_axes, Hge. fields. cbv zeta.
  unfold velocityAfterFriction. fields.
  split.
  - intros Hlow. rewrite settle_high by (assumption || lia).
    fields. split; reflexivity.
  - intros Htop Hv. rewrite settle_low by (assumption || lia).
    fields. repeat split; try reflexivity.
    apply restitutionRule_agrees. exact Hv.
Qed.

Lemma restitution_by_signed_velocity_witness :
  exists o',
    objects (simulatePhysics lowres gravityOnWorld) !! 5%nat = Some o' /\
    Vector2.y (RigidBody.velocity o') = Number.ofInt 0.
Proof.
  destruct (restitution_by_signed_velocity lowres gravityOnWorld 5
              (body (Number.ofInt 54) (Number.ofInt 81)
                    (Number.fromInternal 153174) (Number.fromInternal (-308613))))
    as (o' & Ho' & Hbottom & _).
  - unfold Display.fits. simpl. lia.
  - reflexivity.
  - vm_compute. reflexivity.
  - exists o'. split; [exact Ho' |].
    apply Hbottom. vm_compute. reflexivity.
Defined.

(** What the step does above the top bound for every velocity: the test of
    the source, on the signed value. *)
Lemma top_bound_signed_rule (d : Display.t) (g : Game) (i : nat) (o : RigidBody.t) :
  Display.fits d ->
  gravityEnabled g = true ->
  objects g !! i = Some o ->
  Number.lt (Point2.y (RigidBody.position o)) (Number.ofInt 0) ->
  exists o',
    objects (simulatePhysics d g) !! i = Some o' /\
    Vector2.y (RigidBody.velocity o')
      = restitutionRule
          (Number.add (Vector2.y (RigidBody.velocity o)) (Vector2.y (gravitationalForce g))) /\
    Point2.y (RigidBody.position o')
      = Number.add (Number.ofInt 0) (Vector2.y (RigidBody.velocity o')).
Proof.
  intros [_ Hh] Hge Hlook Htop.
  eexists. split; [apply lookup_step, Hlook |].
  rewrite simulateObject_axes, Hge. fields. cbv zeta.
  unfold velocityAfterFriction. fields.
  rewrite settle_low by (assumption || lia).
  fields. split; reflexivity.
Qed.

(** The case left out above, at a state the program reaches: after [setup]
    with the sample generator, gravity switched on and inverted, and one
    more frame, body 7 is above the top bound ([y] about -1.4) and rising
    ([velocity.y] about -3.3).  The next step clamps it to [y = 0] and, its
    velocity at the test being -248741 Epsilon, sets [velocity.y] to 0: the
    test of the top bound is the one of the bottom bound, so a body that
    hits the top is stopped and never rebounds. *)
Lemma top_bound_rising_body_is_stopped :
  reachable lowres risingWorld /\
  gravityEnabled (fst risingWorld) = true /\
  gravitationalForce (fst risingWorld) = gravityUp /\
  objects (fst risingWorld) !! 7%nat
    = Some (body (Number.fromInternal 4822710) (Number.fromInternal (-90863))
                 (Number.fromInternal (-29263)) (Number.fromInternal (-215973))) /\
  Number.add (Number.fromInternal (-215973)) (Vector2.y gravityUp)
    = Number.fromInternal (-248741) /\
  Number.getInternal RestitutionThreshold < Number.magnitude (Number.fromInternal (-248741)) /\
  restitutionRule_spec (Number.fromInternal (-248741)) = Number.fromInternal 74619 /\
  (exists o',
     objects (simulatePhysics lowres (fst risingWorld)) !! 7%nat = Some o' /\
     Point2.y (RigidBody.position o') = Number.ofInt 0 /\
     Vector2.y (RigidBody.velocity o') = Number.ofInt 0).
Proof.
  split; [apply reachable_run, reachable_afterSetup |].
  repeat (split; [vm_compute; reflexivity |]).
  eexists. split; [vm_compute; reflexivity |].
  split; reflexivity.
Qed.

(** ** Friction without gravity *)

Lemma valid_mul (a b : Number.t) : Number.valid (Number.mul a b).
Proof. apply to_int32_range. Qed.

Lemma friction_component (v : Number.t) :
  Number.valid v -> frictionStep v (Number.mul v CoefficientOfFriction).
Proof.
  unfold Number.valid, is_int32, frictionStep, Number.mul, Number.FractionSize.
  cbn [Number.getInternal].
  change (Number.getInternal CoefficientOfFriction) with 62259.
  set (a := Number.getInternal v). intros Ha.
  rewrite Z.shiftr_div_pow2 by lia.
  change (2 ^ 16) with 65536.
  pose proof (Z.div_mod (a * 62259) 65536 ltac:(lia)) as Hdiv.
  pose proof (Z.mod_pos_bound (a * 62259) 65536 ltac:(lia)) as Hmod.
  set (q := a * 62259 / 65536) in *.
  rewrite to_int32_small by (unfold is_int32; lia).
  cbv zeta. repeat split; intros; lia.
Qed.

Lemma simulateObject_inBounds (d : Display.t) (gf : Vector2.t) (o : RigidBody.t) :
  Display.fits d -> inBounds d o ->
  RigidBody.velocity (simulateObject d false gf o)
  = Vector2.scale (RigidBody.velocity o) CoefficientOfFriction.
Proof.
  intros [Hw Hh] [Hx Hy].
  rewrite simulateObject_axes. cbv zeta.
  unfold velocityAfterFriction. fields.
  rewrite !bounce_inside by (assumption || lia).
  reflexivity.
Qed.

(** C6, as stated, fails.  A body well inside the display with
    [velocity = (-1, -19) Epsilon] and no gravity keeps exactly this
    velocity step after step (here after 1 and after 100 steps): the
    product with [CoefficientOfFriction] is rounded toward minus infinity,
    so neither component decreases in magnitude or approaches zero.  And a
    body with [velocity = (Epsilon, 0)] is at rest after one step, so that
    the second step decreases nothing. *)
Lemma friction_monotonicity_counterexample :
  inBounds lowres creepBody /\
  objects (worldWith false gravityDown creepBody) !! 1%nat = Some creepBody /\
  (exists o',
     objects (simulatePhysics lowres (worldWith false gravityDown creepBody)) !! 1%nat = Some o' /\
     RigidBody.velocity o' = RigidBody.velocity creepBody /\
     inBounds lowres o') /\
  (exists o',
     objects (steps lowres 100 (worldWith false gravityDown creepBody)) !! 1%nat = Some o' /\
     RigidBody.velocity o' = RigidBody.velocity creepBody /\
     inBounds lowres o') /\
  inBounds lowres stillBody /\
  objects (worldWith false gravityDown stillBody) !! 1%nat = Some stillBody /\
  (exists o1 o2,
     objects (steps lowres 1 (worldWith false gravityDown stillBody)) !! 1%nat = Some o1 /\
     objects (steps lowres 2 (worldWith false gravityDown stillBody)) !! 1%nat = Some o2 /\
     inBounds lowres o1 /\
     RigidBody.velocity o1 = Vector2.zero /\
     RigidBody.velocity o2 = Vector2.zero).
Proof.
  split; [vm_compute; repeat split; discriminate |].
  split; [reflexivity |].
  split.
  { eexists. split; [vm_compute; reflexivity |].
    split; [reflexivity | vm_compute; repeat split; discriminate]. }
  split.
  { eexists. split; [vm_compute; reflexivity |].
    split; [reflexivity | vm_compute; repeat split; discriminate]. }
  split; [vm_compute; repeat split; discriminate |].
  split; [reflexivity |].
  do 2 eexists.
  split; [vm_compute; reflexivity |].
  split; [vm_compute; reflexivity |].
  split; [vm_compute; repeat split; discriminate |].
  split; reflexivity.
Qed.

(** C6, amended: without gravity, as long as the body meets no boundary,
    every step multiplies each velocity component by
    [CoefficientOfFriction] with rounding toward minus infinity: the sign
    is never reversed and the magnitude never grows; a positive component
    strictly decreases (down to 0), a component at or below -20 Epsilon
    strictly decreases in magnitude, zero stays zero, and a component
    between -19 Epsilon and -Epsilon stays as it is. *)
Theorem friction_without_gravity (d : Display.t) (g : Game) (i : nat) (o : RigidBody.t) (n : nat) :
  Display.fits d ->
  gravityEnabled g = false ->
  objects g !! i = Some o ->
  Number.valid (Vector2.x (RigidBody.velocity o)) ->
  Number.valid (Vector2.y (RigidBody.velocity o)) ->
  (forall k, (k < n)%nat ->
     exists ok, objects (steps d k g) !! i = Some ok /\ inBounds d ok) ->
  forall k, (k < n)%nat ->
    exists ok ok',
      objects (steps d k g) !! i = Some ok /\
      objects (steps d (S k) g) !! i = Some ok' /\
      frictionStep (Vector2.x (RigidBody.velocity ok)) (Vector2.x (RigidBody.velocity ok')) /\
      frictionStep (Vector2.y (RigidBody.velocity ok)) (Vector2.y (RigidBody.velocity ok')).
Proof.
  intros Hfit Hge Hlook Hvx Hvy Hin.
  assert (Hvalid : forall k, (k <= n)%nat ->
            exists ok, objects (steps d k g) !! i = Some ok /\
                       Number.valid (Vector2.x (RigidBody.velocity ok)) /\
                       Number.valid (Vector2.y (RigidBody.velocity ok))).
  { induction k as [| k IH]; intros Hk.
    - exists o. auto.
    - destruct IH as (ok & Hok & _); [lia |].
      destruct (Hin k ltac:(lia)) as (ok2 & Hok2 & Hb).
      rewrite Hok in Hok2. injection Hok2 as <-.
      eexists. split.
      + rewrite steps_S. apply lookup_step, Hok.
      + rewrite steps_gravityEnabled, Hge.
        rewrite simulateObject_inBounds by assumption.
        split; apply valid_mul. }
  intros k Hk.
  destruct (Hvalid k ltac:(lia)) as (ok & Hok & Vx & Vy).
  destruct (Hin k Hk) as (ok2 & Hok2 & Hb).
  rewrite Hok in Hok2. injection Hok2 as <-.
  exists ok. eexists. split; [exact Hok |].
  split; [rewrite steps_S; apply lookup_step, Hok |].
  rewrite steps_gravityEnabled, Hge.
  rewrite simulateObject_inBounds by assumption.
  split; apply friction_component; assumption.
Qed.

Lemma friction_without_gravity_witness :
  exists ok ok',
    objects (steps lowres 0 (worldWith false gravityDown driftBody)) !! 1%nat = Some ok /\
    objects (steps lowres 1 (worldWith false gravityDown driftBody)) !! 1%nat = Some ok' /\
    frictionStep (Vector2.x (RigidBody.velocity ok)) (Vector2.x (RigidBody.velocity ok')) /\
    frictionStep (Vector2.y (RigidBody.velocity ok)) (Vector2.y (RigidBody.velocity ok')).
Proof.
  apply (friction_without_gravity lowres (worldWith false gravityDown driftBody) 1 driftBody 1).
  - unfold Display.fits. simpl. lia.
  - reflexivity.
  - reflexivity.
  - unfold Number.valid, is_int32. vm_compute. split; [discriminate | reflexivity].
  - unfold Number.valid, is_int32. vm_compute. split; [discriminate | reflexivity].
  - intros k Hk. assert (k = 0%nat) as -> by lia.
    exists driftBody. split; [reflexivity |].
    vm_compute. repeat split; discriminate.
  - lia.
Defined.

(** ** Randomisation *)

Lemma lor_shiftl_add (i f : Z) :
  0 <= f < 2 ^ 16 -> Z.lor (Z.shiftl i 16) f = i * 2 ^ 16 + f.
Proof.
  intros Hf. rewrite Z.shiftl_mul_pow2 by lia.
  symmetry. apply Z.add_nocarry_lor.
  apply Z.bits_inj'. intros n Hn.
  rewrite Z.land_spec, Z.bits_0.
  destruct (Z.lt_ge_cases n 16) as [Hlt | Hge].
  - rewrite Z.mul_pow2_bits_low by lia. reflexivity.
  - destruct (Z.eq_dec f 0) as [-> | Hf0].
    + rewrite Z.bits_0. apply andb_false_r.
    + rewrite (Z.bits_above_log2 f n); [apply andb_false_r | lia |].
      assert (Z.log2 f < 16) by (apply Z.log2_lt_pow2; lia). lia.
Qed.

Lemma make_internal (i f : Z) :
  -32768 <= i <= 32767 -> 0 <= f < 65536 ->
  Number.getInternal (Number.make i f) = i * 65536 + f.
Proof.
  intros Hi Hf. unfold Number.make, Number.FractionSize. cbn [Number.getInternal].
  rewrite lor_shiftl_add by (change (2 ^ 16) with 65536; lia).
  change (2 ^ 16) with 65536.
  apply to_int32_small. unfold is_int32. lia.
Qed.

Lemma randomOffset_spec (r : Rand.t) :
  Rand.nonneg r ->
  isOffset (fst (randomOffset r)) /\ Rand.draws (snd (randomOffset r)) = Rand.draws r.
Proof.
  intros Hr. unfold randomOffset, Rand.rand. cbn [fst snd Rand.draws Rand.cursor].
  split; [| reflexivity].
  pose proof (Z.rem_bound_pos (Rand.draws r (Rand.cursor r)) 16 (Hr _) ltac:(lia)).
  pose proof (Z.rem_bound_pos (Rand.draws r (S (Rand.cursor r))) 65536 (Hr _) ltac:(lia)).
  change (Z.shiftl 1 Number.FractionSize) with 65536.
  unfold isOffset, Number.le, Number.lt.
  rewrite make_internal, !ofInt_internal by lia. lia.
Qed.


Lemma randomiseObject_spec (d : Display.t) (ge : bool) (o : RigidBody.t) (r : Rand.t) :
  0 < Display.getWidth d <= 32767 ->
  0 < Display.getHeight d <= 32767 ->
  Rand.nonneg r ->
  randomised d ge o (fst (randomiseObject d ge (o, r))) /\
  Rand.draws (snd (randomiseObject d ge (o, r))) = Rand.draws r.
Proof.
  intros Hw Hh Hr. unfold randomiseObject.
  cbn [Rand.rand fst snd Rand.draws Rand.cursor].
  pose proof (Z.rem_bound_pos (Rand.draws r (Rand.cursor r)) (Display.getWidth d)
                (Hr _) ltac:(lia)) as Hx.
  pose proof (Z.rem_bound_pos (Rand.draws r (S (Rand.cursor r))) (Display.getHeight d)
                (Hr _) ltac:(lia)) as Hy.
  set (r2 := Rand.make (Rand.draws r) (S (S (Rand.cursor r)))).
  assert (Hr2 : Rand.nonneg r2) by (intros n; apply Hr).
  destruct ge.
  - destruct (randomOffset_spec r2 Hr2) as [Hoff Hd].
    destruct (randomOffset r2) as [oy r3]. fields. cbn [fst snd] in *.
    split; [| exact Hd].
    unfold randomised, Number.le, Number.lt. fields.
    rewrite !ofInt_internal by lia.
    repeat split; try lia.
    exists oy. split; [exact Hoff | reflexivity].
  - destruct (randomOffset_spec r2 Hr2) as [Hoff Hd].
    destruct (randomOffset r2) as [ox r3]. cbn [fst snd] in *.
    assert (Hr3 : Rand.nonneg r3) by (intros n; rewrite Hd; apply Hr).
    destruct (randomOffset_spec r3 Hr3) as [Hoff' Hd'].
    destruct (randomOffset r3) as [oy r4]. fields. cbn [fst snd] in *.
    split; [| rewrite Hd'; exact Hd].
    unfold randomised, Number.le, Number.lt. fields.
    rewrite !ofInt_internal by lia.
    repeat split; try lia.
    exists ox, oy. repeat split; try assumption; apply Hoff || apply Hoff'.
Qed.

Lemma randomise_loop (d : Display.t) (ge : bool) (suf : list RigidBody.t) :
  0 < Display.getWidth d <= 32767 ->
  0 < Display.getHeight d <= 32767 ->
  forall (pre : list RigidBody.t) (r : Rand.t),
    Rand.nonneg r ->
    exists suf' r',
      forLoop (length suf) (length pre) (randomiseAt d ge) (pre ++ suf, r) = (pre ++ suf', r') /\
      Forall2 (randomised d ge) suf suf' /\
      Rand.draws r' = Rand.draws r.
Proof.
  intros Hw Hh. induction suf as [| a suf IH]; intros pre r Hr.
  - exists [], r. repeat split. constructor.
  - cbn [length forLoop].
    destruct (randomiseObject_spec d ge a r Hw Hh Hr) as [Ha Hd].
    assert (Hat : randomiseAt d ge (length pre) (pre ++ a :: suf, r)
                  = ((pre ++ [fst (randomiseObject d ge (a, r))]) ++ suf,
                     snd (randomiseObject d ge (a, r)))).
    { unfold randomiseAt. cbn [fst snd].
      rewrite lookup_app_r by lia.
      replace (length pre - length pre)%nat with 0%nat by lia. cbn [lookup list_lookup].
      destruct (randomiseObject d ge (a, r)) as [a' r1]. cbn [fst snd].
      rewrite insert_app_r_alt by lia.
      replace (length pre - length pre)%nat with 0%nat by lia. cbn.
      rewrite <- app_assoc. reflexivity. }
    rewrite Hat.
    set (a' := fst (randomiseObject d ge (a, r))) in *.
    set (r1 := snd (randomiseObject d ge (a, r))) in *.
    assert (Hr1 : Rand.nonneg r1) by (intros n; rewrite Hd; apply Hr).
    replace (S (length pre)) with (length (pre ++ [a'])) by (rewrite length_app; cbn; lia).
    destruct (IH (pre ++ [a']) r1 Hr1) as (suf' & r' & Hloop & Hall & Hd').
    exists (a' :: suf'), r'. split; [| split].
    + rewrite Hloop, <- app_assoc. reflexivity.
    + constructor; assumption.
    + rewrite Hd'. exact Hd.
Qed.

Lemma randomiseObject_cursor (d : Display.t) (ge : bool) (o : RigidBody.t) (r : Rand.t) :
  Rand.draws (snd (randomiseObject d ge (o, r))) = Rand.draws r /\
  Rand.cursor (snd (randomiseObject d ge (o, r)))
  = ((if ge then 4 else 6) + Rand.cursor r)%nat.
Proof.
  unfold randomiseObject, randomOffset, Rand.rand. destruct ge; split; reflexivity.
Qed.

Lemma randomiseObject_by (d : Display.t) (ge : bool) (o : RigidBody.t) (r : Rand.t) :
  randomisedBy d ge (Rand.draws r) (Rand.cursor r) o (fst (randomiseObject d ge (o, r))).
Proof.
  unfold randomisedBy, randomiseObject, randomOffset, perturbation, Rand.rand.
  destruct ge; cbn [fst snd Rand.draws Rand.cursor]; fields.
  - split.
    + exists (Rand.cursor r), (S (Rand.cursor r)). repeat split; try lia.
    + split; [reflexivity |].
      exists (S (S (Rand.cursor r))), (S (S (S (Rand.cursor r)))). repeat split; try lia.
  - split.
    + exists (Rand.cursor r), (S (Rand.cursor r)). repeat split; try lia.
    + exists (S (S (Rand.cursor r))), (S (S (S (Rand.cursor r)))),
        (S (S (S (S (Rand.cursor r))))), (S (S (S (S (S (Rand.cursor r)))))).
      repeat split; try lia.
Qed.

Lemma randomise_loop_by (d : Display.t) (ge : bool) (suf : list RigidBody.t) :
  0 < Display.getWidth d <= 32767 ->
  0 < Display.getHeight d <= 32767 ->
  forall (pre : list RigidBody.t) (r : Rand.t),
    Rand.nonneg r ->
    exists suf' r',
      forLoop (length suf) (length pre) (randomiseAt d ge) (pre ++ suf, r) = (pre ++ suf', r') /\
      length suf' = length suf /\
      forall j o,
        suf !! j = Some o ->
        exists o',
          suf' !! j = Some o' /\
          randomised d ge o o' /\
          randomisedBy d ge (Rand.draws r)
            (Rand.cursor r + (if ge then 4 else 6) * j) o o'.
Proof.
  intros Hw Hh. induction suf as [| a suf IH]; intros pre r Hr.
  - exists [], r. repeat split. intros j o Hj. discriminate.
  - cbn [length forLoop].
    destruct (randomiseObject_spec d ge a r Hw Hh Hr) as [Ha Hd].
    destruct (randomiseObject_cursor d ge a r) as [_ Hc].
    pose proof (randomiseObject_by d ge a r) as Hby.
    assert (Hat : randomiseAt d ge (length pre) (pre ++ a :: suf, r)
                  = ((pre ++ [fst (randomiseObject d ge (a, r))]) ++ suf,
                     snd (randomiseObject d ge (a, r)))).
    { unfold randomiseAt. cbn [fst snd].
      rewrite lookup_app_r by lia.
      replace (length pre - length pre)%nat with 0%nat by lia. cbn [lookup list_lookup].
      destruct (randomiseObject d ge (a, r)) as [a' r1]. cbn [fst snd].
      rewrite insert_app_r_alt by lia.
      replace (length pre - length pre)%nat with 0%nat by lia. cbn.
      rewrite <- app_assoc. reflexivity. }
    rewrite Hat.
    set (a' := fst (randomiseObject d ge (a, r))) in *.
    set (r1 := snd (randomiseObject d ge (a, r))) in *.
    assert (Hr1 : Rand.nonneg r1) by (intros n; rewrite Hd; apply Hr).
    replace (S (length pre)) with (length (pre ++ [a'])) by (rewrite length_app; cbn; lia).
    destruct (IH (pre ++ [a']) r1 Hr1) as (suf' & r' & Hloop & Hlen & Hall).
    exists (a' :: suf'), r'. split; [| split].
    + rewrite Hloop, <- app_assoc. reflexivity.
    + cbn [length]. rewrite Hlen. reflexivity.
    + intros j o Hj. destruct j as [| j].
      * cbn in Hj. injection Hj as <-. exists a'.
        split; [reflexivity |]. split; [exact Ha |].
        replace (Rand.cursor r + (if ge then 4 else 6) * 0)%nat with (Rand.cursor r) by lia.
        exact Hby.
      * cbn in Hj. destruct (Hall j o Hj) as (o' & Ho' & Hrel & Hfrom).
        exists o'. split; [exact Ho' |]. split; [exact Hrel |].
        rewrite Hd, Hc in Hfrom.
        replace (Rand.cursor r + (if ge then 4 else 6) * S j)%nat
          with ((if ge then 4 else 6) + Rand.cursor r + (if ge then 4 else 6) * j)%nat
          by (destruct ge; lia).
        exact Hfrom.
Qed.

(** C7: after [randomiseObjects], every body, the player (index 0) like
    the others, has its position in
    [[0, displayWidth) x [0, displayHeight)]; with gravity only
    [velocity.y] has received a random offset in [[-8, 8)] and
    [velocity.x] is as before, without gravity both components have
    received such an offset.  Position and offsets are the ones built from
    the results of [rand()] of the body's own calls (the results number
    [4 i] to [4 i + 3] after the start with gravity, [6 i] to [6 i + 5]
    without): the first two, reduced modulo the width and the height, are
    the position; the others, two by two, are the offsets
    [Number(-8 + a % 16, b % 65536)], no result being used twice. *)
Theorem randomise_bounds (d : Display.t) (g : Game) (r : Rand.t) :
  0 < Display.getWidth d <= 32767 ->
  0 < Display.getHeight d <= 32767 ->
  Rand.nonneg r ->
  length (objects (fst (randomiseObjects d (g, r)))) = length (objects g) /\
  forall i o,
    objects g !! i = Some o ->
    exists o',
      objects (fst (randomiseObjects d (g, r))) !! i = Some o' /\
      randomised d (gravityEnabled g) o o' /\
      randomisedBy d (gravityEnabled g) (Rand.draws r)
        (Rand.cursor r + (if gravityEnabled g then 4 else 6) * i) o o'.
Proof.
  intros Hw Hh Hr.
  destruct (randomise_loop_by d (gravityEnabled g) (objects g) Hw Hh [] r Hr)
    as (os' & r' & Hloop & Hlen & Hall).
  unfold randomiseObjects, arrayLength.
  cbn [length app] in Hloop. rewrite Hloop. cbn [fst objects setObjects].
  split.
  - exact Hlen.
  - intros i o Ho. destruct (Hall i o Ho) as (o' & Ho' & Hrel & Hfrom).
    exists o'. split; [exact Ho' |]. split; [exact Hrel | exact Hfrom].
Qed.

Lemma randomise_bounds_witness :
  length (objects (fst (randomiseObjects lowres (initialGame, sampleRand))))
    = length (objects initialGame) /\
  forall i o,
    objects initialGame !! i = Some o ->
    exists o',
      objects (fst (randomiseObjects lowres (initialGame, sampleRand))) !! i = Some o' /\
      randomised lowres (gravityEnabled initialGame) o o' /\
      randomisedBy lowres (gravityEnabled initialGame) (Rand.draws sampleRand)
        (Rand.cursor sampleRand + (if gravityEnabled initialGame then 4 else 6) * i) o o'.
Proof.
  apply (randomise_bounds lowres initialGame sampleRand).
  - simpl. lia.
  - simpl. lia.
  - intros n. apply Z.mod_pos_bound. lia.
Defined.
(** With an oracle whose every result is 1 the relation leaves one outcome
    only: the body stands at (1, 1), and its velocity has moved by
    [-7 + Epsilon] on y alone with gravity, on both axes without; a
    routine that left the body alone, or that perturbed one axis where two
    are due, does not satisfy it. *)
Lemma randomisedBy_ones (ge : bool) (s : nat) (o o' : RigidBody.t) :
  randomisedBy lowres ge (Rand.draws onesRand) s o o' ->
  RigidBody.position o' = Point2.make (Number.ofInt 1) (Number.ofInt 1) /\
  Vector2.y (RigidBody.velocity o')
  = Number.add (Vector2.y (RigidBody.velocity o)) (Number.fromInternal (-458751)) /\
  Vector2.x (RigidBody.velocity o')
  = if ge then Vector2.x (RigidBody.velocity o)
    else Number.add (Vector2.x (RigidBody.velocity o)) (Number.fromInternal (-458751)).
Proof.
  unfold randomisedBy. cbn [onesRand Rand.draws].
  change (perturbation 1 1) with (Number.fromInternal (-458751)).
  intros [(ia & ib & _ & _ & _ & Hp) Hv]. split; [exact Hp |].
  destruct ge.
  - destruct Hv as (Hx & ic & ie & _ & _ & _ & Hy). split; assumption.
  - destruct Hv as (i1 & i2 & i3 & i4 & _ & _ & Hx & Hy). split; assumption.
Qed.

(** ** Determinism *)

Lemma physicsState_eq (g1 g2 : Game) :
  physicsState g1 = physicsState g2 ->
  objects g1 = objects g2 /\ gravityEnabled g1 = gravityEnabled g2 /\
  gravitationalForce g1 = gravitationalForce g2.
Proof.
  unfold physicsState. intros H. injection H as H1 H2 H3. auto.
Qed.

Lemma simulatePhysics_physicsState (d : Display.t) (g1 g2 : Game) :
  physicsState g1 = physicsState g2 ->
  physicsState (simulatePhysics d g1) = physicsState (simulatePhysics d g2).
Proof.
  intros H. apply physicsState_eq in H as (Ho & Hg & Hf).
  unfold physicsState.
  rewrite !simulatePhysics_objects.
  destruct (simulatePhysics_frame d g1) as (-> & -> & _).
  destruct (simulatePhysics_frame d g2) as (-> & -> & _).
  rewrite Ho, Hg, Hf. reflexivity.
Qed.

Lemma updateInput_physicsState (d : Display.t) (b : Buttons.t) (g1 g2 : Game) (r : Rand.t) :
  physicsState g1 = physicsState g2 ->
  physicsState (fst (updateInput d b (g1, r))) = physicsState (fst (updateInput d b (g2, r))) /\
  snd (updateInput d b (g1, r)) = snd (updateInput d b (g2, r)).
Proof.
  intros H. apply physicsState_eq in H as (Ho & Hg & Hf).
  destruct g1 as [os1 ge1 gf1 s1 c1], g2 as [os2 ge2 gf2 s2 c2].
  cbn [objects gravityEnabled gravitationalForce] in Ho, Hg, Hf. subst os2 ge2 gf2.
  unfold updateInput, randomiseObjects, arrayLength, physicsState.
  cbn [objects gravityEnabled gravitationalForce statRenderingEnabled debugCounter].
  destruct (forLoop (length os1) 0 (randomiseAt d ge1) (os1, r)) as [os' r'].
  destruct (Buttons.repeatB b), (Buttons.heldA b), (Buttons.heldDown b),
    (Buttons.heldUp b), (Buttons.heldLeft b); split; reflexivity.
Qed.

Lemma loop_physicsState (d : Display.t) (b : Buttons.t) (g1 g2 : Game) (r : Rand.t) :
  physicsState g1 = physicsState g2 ->
  physicsState (fst (loop d b (g1, r))) = physicsState (fst (loop d b (g2, r))) /\
  snd (loop d b (g1, r)) = snd (loop d b (g2, r)).
Proof.
  intros H. unfold loop.
  destruct (updateInput_physicsState d b g1 g2 r H) as [Hp Hr].
  destruct (updateInput d b (g1, r)) as [g1' r1], (updateInput d b (g2, r)) as [g2' r2].
  cbn [fst snd] in *. subst r2.
  apply (simulatePhysics_physicsState d) in Hp.
  split; [| reflexivity].
  destruct (statRenderingEnabled (simulatePhysics d g1')),
    (statRenderingEnabled (simulatePhysics d g2')); exact Hp.
Qed.

Lemma run_physicsState (d : Display.t) (inputs : list Buttons.t) :
  forall (g1 g2 : Game) (r : Rand.t),
    physicsState g1 = physicsState g2 ->
    physicsState (fst (run d inputs (g1, r))) = physicsState (fst (run d inputs (g2, r))) /\
    snd (run d inputs (g1, r)) = snd (run d inputs (g2, r)).
Proof.
  induction inputs as [| b inputs IH]; intros g1 g2 r H.
  - split; [exact H | reflexivity].
  - cbn [run].
    destruct (loop_physicsState d b g1 g2 r H) as [Hp Hr].
    destruct (loop d b (g1, r)) as [g1' r1], (loop d b (g2, r)) as [g2' r2].
    cbn [fst snd] in *. subst r2. apply IH, Hp.
Qed.

Lemma steps_physicsState (d : Display.t) (n : nat) :
  forall g1 g2 : Game,
    physicsState g1 = physicsState g2 ->
    physicsState (steps d n g1) = physicsState (steps d n g2).
Proof.
  induction n as [| n IH]; intros g1 g2 H.
  - exact H.
  - cbn [steps]. apply IH, simulatePhysics_physicsState, H.
Qed.

(** C8: two runs that start from the same bodies and the same gravity
    flags end with identical bodies and gravity flags, whatever else
    differs between the two worlds: after [n] calls of [step()], and after
    any sequence of frames with the same inputs (buttons and results of
    [rand()]). *)
Theorem step_deterministic
  (d : Display.t) (n : nat) (inputs : list Buttons.t) (g1 g2 : Game) (r : Rand.t) :
  physicsState g1 = physicsState g2 ->
  physicsState (steps d n g1) = physicsState (steps d n g2) /\
  physicsState (fst (run d inputs (g1, r))) = physicsState (fst (run d inputs (g2, r))) /\
  snd (run d inputs (g1, r)) = snd (run d inputs (g2, r)).
Proof.
  intros H. split.
  - apply steps_physicsState, H.
  - apply run_physicsState, H.
Qed.

Lemma step_deterministic_witness :
  driftWorld <> driftWorldNoStats /\
  physicsState (steps lowres 3 driftWorld) = physicsState (steps lowres 3 driftWorldNoStats) /\
  physicsState (fst (run lowres [pressGravityOn; Buttons.none] (driftWorld, sampleRand)))
  = physicsState (fst (run lowres [pressGravityOn; Buttons.none] (driftWorldNoStats, sampleRand))).
Proof.
  split; [discriminate |].
  destruct (step_deterministic lowres 3 [pressGravityOn; Buttons.none]
              driftWorld driftWorldNoStats sampleRand)
    as (H1 & H2 & _).
  - reflexivity.
  - split; assumption.
Defined.

(** * Further properties of the sources *)

(** ** [Physics/Point.h]: comparison of points *)

(** X1: [operator ==] of [Point2] holds exactly of equal points, and
    [operator !=] is its negation. *)
Theorem Point2_eqb_eq (l r : Point2.t) :
  (Point2.eqb l r = true <-> l = r) /\
  Point2.neqb l r = negb (Point2.eqb l r).
Proof.
  destruct l as [[a] [b]], r as [[c] [e]].
  unfold Point2.eqb, Point2.neqb, Number.eqb. cbn [Point2.x Point2.y Number.getInternal].
  split.
  - rewrite andb_true_iff, !Z.eqb_eq. split.
    + intros [-> ->]. reflexivity.
    + intros H. injection H as -> ->. split; reflexivity.
  - rewrite negb_andb. reflexivity.
Qed.

(** ** [Physics/Common.h]: the reinterpretation, the other way round *)

(** X2: [fromUnsigned] followed by [fromSigned] gives back every
    [NumberU]. *)
Theorem fromSigned_fromUnsigned (u : NumberU.t) :
  NumberU.valid u -> fromSigned (fromUnsigned u) = u.
Proof.
  destruct u as [z]. unfold NumberU.valid, is_uint32, fromSigned, fromUnsigned, to_uint32, to_int32.
  cbn [Number.getInternal NumberU.getInternal]. intros Hz. f_equal.
  rewrite Zminus_mod_idemp_l.
  replace (z + 2 ^ 31 - 2 ^ 31) with z by lia.
  apply Z.mod_small. exact Hz.
Qed.

Lemma fromSigned_fromUnsigned_witness :
  NumberU.valid (NumberU.fromInternal 4294770688) /\
  fromUnsigned (NumberU.fromInternal 4294770688) = Number.ofInt (-3) /\
  fromSigned (fromUnsigned (NumberU.fromInternal 4294770688)) = NumberU.fromInternal 4294770688.
Proof.
  assert (H : NumberU.valid (NumberU.fromInternal 4294770688)).
  { unfold NumberU.valid, is_uint32. vm_compute. split; [discriminate | reflexivity]. }
  split; [exact H |].
  split; [reflexivity |].
  exact (fromSigned_fromUnsigned (NumberU.fromInternal 4294770688) H).
Defined.

(** X3: [fromSigned] keeps the internal integer of a [Number] that is not
    negative, and adds [2^32] to the one of a negative [Number]: the
    unsigned value is the signed one only for non-negative numbers. *)
Theorem fromSigned_value (v : Number.t) :
  Number.valid v ->
  NumberU.getInternal (fromSigned v)
  = if Number.getInternal v <? 0 then Number.getInternal v + 2 ^ 32 else Number.getInternal v.
Proof.
  destruct v as [z]. unfold Number.valid, is_int32, fromSigned, to_uint32.
  cbn [Number.getInternal NumberU.getInternal]. intros Hz.
  destruct (Z.ltb_spec z 0).
  - rewrite <- (Z_mod_plus_full z 1 (2 ^ 32)). rewrite Z.mul_1_l.
    apply Z.mod_small. lia.
  - apply Z.mod_small. lia.
Qed.

Lemma fromSigned_value_witness :
  Number.valid (Number.ofInt (-3)) /\
  NumberU.getInternal (fromSigned (Number.ofInt (-3))) = -196608 + 2 ^ 32.
Proof.
  assert (H : Number.valid (Number.ofInt (-3))).
  { unfold Number.valid, is_int32. vm_compute. split; [discriminate | reflexivity]. }
  split; [exact H | exact (fromSigned_value (Number.ofInt (-3)) H)].
Defined.

(** ** [Physics/Point.h]: [distanceSquared] *)

Lemma to_int32_opp (z : Z) :
  to_int32 (- z) = - to_int32 z \/ (to_int32 (- z) = - 2 ^ 31 /\ to_int32 z = - 2 ^ 31).
Proof.
  unfold to_int32.
  change (2 ^ 31) with 2147483648. change (2 ^ 32) with 4294967296.
  Z.div_mod_to_equations. lia.
Qed.

Lemma square_sub_swap (a b : Number.t) :
  square (Number.sub a b) = square (Number.sub b a).
Proof.
  unfold square, Number.mul, Number.sub. cbn [Number.getInternal].
  replace (Number.getInternal b - Number.getInternal a)
    with (- (Number.getInternal a - Number.getInternal b)) by lia.
  destruct (to_int32_opp (Number.getInternal a - Number.getInternal b)) as [-> | [-> ->]].
  - rewrite Z.mul_opp_opp. reflexivity.
  - reflexivity.
Qed.

(** X4: [distanceSquared] is symmetric in its two points, for all points
    (also where the differences wrap around). *)
Theorem distanceSquared_symmetric (p q : Point2.t) :
  distanceSquared p q = distanceSquared q p.
Proof.
  unfold distanceSquared.
  rewrite (square_sub_swap (Point2.x p) (Point2.x q)).
  rewrite (square_sub_swap (Point2.y p) (Point2.y q)).
  reflexivity.
Qed.

Lemma square_internal (x : Z) :
  is_int32 x -> x * x / 65536 < 2 ^ 31 ->
  Number.getInternal (square (Number.fromInternal x)) = x * x / 65536.
Proof.
  intros Hx Hs. unfold square, Number.mul, Number.FractionSize. cbn [Number.getInternal].
  rewrite Z.shiftr_div_pow2 by lia. change (2 ^ 16) with 65536.
  apply to_int32_small. unfold is_int32. split; [| exact Hs].
  assert (0 <= x * x / 65536) by (apply Z.div_pos; nia). lia.
Qed.

(** X5: where nothing overflows (the differences [dx], [dy] of the internal
    integers fit 32 bits and the sum of the two squares is below [2^31]
    Epsilon), [distanceSquared] is exactly
    [floor (dx^2 / 2^16) + floor (dy^2 / 2^16)], and it is zero exactly when
    both differences are below 256 Epsilon in magnitude: points less than
    1/256 apart on both axes are at distance zero. *)
Theorem distanceSquared_exact (p q : Point2.t) :
  let dx := Number.getInternal (Point2.x p) - Number.getInternal (Point2.x q) in
  let dy := Number.getInternal (Point2.y p) - Number.getInternal (Point2.y q) in
  is_int32 dx -> is_int32 dy ->
  dx * dx / 65536 + dy * dy / 65536 < 2 ^ 31 ->
  NumberU.getInternal (distanceSquared p q) = dx * dx / 65536 + dy * dy / 65536 /\
  (NumberU.getInternal (distanceSquared p q) = 0 <-> Z.abs dx < 256 /\ Z.abs dy < 256).
Proof.
  intros dx dy Hx Hy Hsum.
  assert (Px : 0 <= dx * dx / 65536) by (apply Z.div_pos; nia).
  assert (Py : 0 <= dy * dy / 65536) by (apply Z.div_pos; nia).
  assert (E : NumberU.getInternal (distanceSquared p q)
              = dx * dx / 65536 + dy * dy / 65536).
  { unfold distanceSquared, fromSigned, Number.add, Number.sub.
    cbn [Number.getInternal NumberU.getInternal]. fold dx dy.
    rewrite (to_int32_small dx Hx), (to_int32_small dy Hy).
    rewrite !square_internal by (assumption || lia).
    rewrite to_int32_small by (unfold is_int32; lia).
    apply Z.mod_small. lia. }
  split; [exact E |].
  rewrite E. split.
  - intros H0.
    assert (Zx : dx * dx / 65536 = 0) by lia.
    assert (Zy : dy * dy / 65536 = 0) by lia.
    apply Z.div_small_iff in Zx; [| lia]. apply Z.div_small_iff in Zy; [| lia].
    split; nia.
  - intros [Ax Ay].
    rewrite (Z.div_small (dx * dx) 65536) by nia.
    rewrite (Z.div_small (dy * dy) 65536) by nia.
    reflexivity.
Qed.

Lemma distanceSquared_exact_witness :
  NumberU.getInternal
    (distanceSquared (Point2.make (Number.ofInt 3) (Number.ofInt 0))
                     (Point2.make (Number.ofInt 0) (Number.ofInt 4)))
  = 25 * 65536.
Proof.
  refine (proj1 (distanceSquared_exact
                   (Point2.make (Number.ofInt 3) (Number.ofInt 0))
                   (Point2.make (Number.ofInt 0) (Number.ofInt 4)) _ _ _)).
  - vm_compute. split; [discriminate | reflexivity].
  - vm_compute. split; [discriminate | reflexivity].
  - vm_compute. reflexivity.
Defined.

(** ** [Game::simulatePhysics]: further properties *)

(** X6: the loop advances each body on its own: the body at index [i]
    after the step depends only on the body at index [i] before it and on
    the gravity state, not on the other bodies; and the step keeps the
    number of bodies. *)
Theorem step_bodies_independent (d : Display.t) (g g' : Game) (i : nat) :
  gravityEnabled g = gravityEnabled g' ->
  gravitationalForce g = gravitationalForce g' ->
  objects g !! i = objects g' !! i ->
  objects (simulatePhysics d g) !! i = objects (simulatePhysics d g') !! i /\
  length (objects (simulatePhysics d g)) = length (objects g).
Proof.
  intros Hge Hgf Hi. split.
  - rewrite !simulatePhysics_lookup, Hge, Hgf, Hi. reflexivity.
  - rewrite simulatePhysics_objects. apply length_map.
Qed.

Lemma step_bodies_independent_witness :
  objects (simulatePhysics lowres driftWorld) !! 1%nat
  = objects (simulatePhysics lowres
               (setObjects driftWorld (<[2%nat := wallBody]> (objects driftWorld)))) !! 1%nat.
Proof.
  refine (proj1 (step_bodies_independent lowres driftWorld
                   (setObjects driftWorld (<[2%nat := wallBody]> (objects driftWorld))) 1 _ _ _)).
  - reflexivity.
  - reflexivity.
  - reflexivity.
Defined.

Lemma neg_magnitude (v : Number.t) :
  - 2 ^ 31 < Number.getInternal v < 2 ^ 31 ->
  Number.magnitude (Number.neg v) = Number.magnitude v /\
  - 2 ^ 31 < Number.getInternal (Number.neg v) < 2 ^ 31.
Proof.
  intros Hv. unfold Number.magnitude, Number.neg. cbn [Number.getInternal].
  rewrite to_int32_small by (unfold is_int32; lia). lia.
Qed.

Lemma bounce_magnitude (limit : Z) (p v : Number.t) :
  - 2 ^ 31 < Number.getInternal v < 2 ^ 31 ->
  Number.magnitude (snd (bounce limit (p, v))) = Number.magnitude v.
Proof.
  intros Hv. destruct (neg_magnitude v Hv) as [E1 R1].
  destruct (neg_magnitude (Number.neg v) R1) as [E2 _].
  unfold bounce. repeat (split_if; fields); congruence.
Qed.

Lemma friction_magnitude (v : Number.t) :
  Number.valid v ->
  Number.magnitude (Number.mul v CoefficientOfFriction) <= Number.magnitude v /\
  - 2 ^ 31 < Number.getInternal (Number.mul v CoefficientOfFriction) < 2 ^ 31.
Proof.
  intros Hv. pose proof (friction_component v Hv) as H.
  unfold frictionStep in H. cbv zeta in H.
  unfold Number.valid, is_int32, Number.magnitude in *.
  destruct H as (H1 & H2 & H3 & H4 & H5). lia.
Qed.

(** X7: without gravity no step increases the magnitude of a velocity
    component of any body, whether or not the body meets a wall: the walls
    only flip the sign, friction only shrinks. *)
Theorem top_down_speed_never_grows (d : Display.t) (g : Game) (i : nat) (o : RigidBody.t) :
  gravityEnabled g = false ->
  objects g !! i = Some o ->
  Number.valid (Vector2.x (RigidBody.velocity o)) ->
  Number.valid (Vector2.y (RigidBody.velocity o)) ->
  exists o',
    objects (simulatePhysics d g) !! i = Some o' /\
    Number.magnitude (Vector2.x (RigidBody.velocity o'))
      <= Number.magnitude (Vector2.x (RigidBody.velocity o)) /\
    Number.magnitude (Vector2.y (RigidBody.velocity o'))
      <= Number.magnitude (Vector2.y (RigidBody.velocity o)).
Proof.
  intros Hge Hlook Hvx Hvy.
  eexists. split; [apply lookup_step, Hlook |].
  rewrite simulateObject_axes, Hge. fields. cbv zeta.
  unfold velocityAfterFriction. fields.
  destruct (friction_magnitude _ Hvx) as [Lx Rx].
  destruct (friction_magnitude _ Hvy) as [Ly Ry].
  rewrite !bounce_magnitude by assumption.
  split; assumption.
Qed.

Lemma top_down_speed_never_grows_witness :
  exists o',
    objects (simulatePhysics lowres (worldWith false gravityDown wallBody)) !! 1%nat = Some o' /\
    Number.magnitude (Vector2.x (RigidBody.velocity o'))
      <= Number.magnitude (Vector2.x (RigidBody.velocity wallBody)) /\
    Number.magnitude (Vector2.y (RigidBody.velocity o'))
      <= Number.magnitude (Vector2.y (RigidBody.velocity wallBody)).
Proof.
  apply (top_down_speed_never_grows lowres (worldWith false gravityDown wallBody) 1 wallBody).
  - reflexivity.
  - reflexivity.
  - unfold Number.valid, is_int32. vm_compute. split; [discriminate | reflexivity].
  - unfold Number.valid, is_int32. vm_compute. split; [discriminate | reflexivity].
Defined.

Lemma settle_cases (limit : Z) (p v : Number.t) :
  0 <= limit <= 32767 ->
  snd (settle limit (p, v)) = v \/ snd (settle limit (p, v)) = restitutionRule v.
Proof.
  intros Hl.
  destruct (Z.ltb_spec (Number.getInternal p) (Number.getInternal (Number.ofInt 0))) as [Hlow | Hlow].
  - rewrite settle_low by assumption. right. reflexivity.
  - destruct (Z.ltb_spec (Number.getInternal (Number.ofInt limit)) (Number.getInternal p))
      as [Hhigh | Hhigh].
    + rewrite settle_high by assumption. right. reflexivity.
    + left. unfold settle, Number.ltb, Number.gtb.
      destruct (Z.ltb_spec (Number.getInternal p) (Number.getInternal (Number.ofInt 0)));
        [lia |].
      destruct (Z.ltb_spec (Number.getInternal (Number.ofInt limit)) (Number.getInternal p));
        [lia | reflexivity].
Qed.

(** X8: with gravity enabled and pointing down, no body is at rest
    vertically for two steps in a row: a body that enters a step with
    [velocity.y = 0] leaves it with [velocity.y = CoefficientOfGravity]
    (no bound crossed) or with the rebound [-9830 Epsilon] (a bound
    crossed), wherever it is; a body lying on the floor sinks and bounces
    again. *)
Theorem gravity_never_rests (d : Display.t) (g : Game) (i : nat) (o : RigidBody.t) :
  Display.fits d ->
  gravityEnabled g = true ->
  gravitationalForce g = gravityDown ->
  objects g !! i = Some o ->
  Vector2.y (RigidBody.velocity o) = Number.ofInt 0 ->
  exists o',
    objects (simulatePhysics d g) !! i = Some o' /\
    (Vector2.y (RigidBody.velocity o') = CoefficientOfGravity \/
     Vector2.y (RigidBody.velocity o') = Number.fromInternal (-9830)) /\
    Vector2.y (RigidBody.velocity o') <> Number.ofInt 0.
Proof.
  intros [_ Hh] Hge Hgf Hlook Hvy.
  eexists. split; [apply lookup_step, Hlook |].
  rewrite simulateObject_axes, Hge, Hgf. fields. cbv zeta.
  unfold velocityAfterFriction. fields. rewrite Hvy.
  change (Number.add (Number.ofInt 0) (Vector2.y gravityDown)) with CoefficientOfGravity.
  destruct (settle_cases (Display.getHeight d - 8)
              (Point2.y (RigidBody.position o)) CoefficientOfGravity ltac:(lia)) as [-> | ->].
  - split; [left; reflexivity | discriminate].
  - split; [right; reflexivity | discriminate].
Qed.

Lemma gravity_never_rests_witness :
  exists o',
    objects (simulatePhysics lowres (worldWith true gravityDown parkedBody)) !! 1%nat = Some o' /\
    (Vector2.y (RigidBody.velocity o') = CoefficientOfGravity \/
     Vector2.y (RigidBody.velocity o') = Number.fromInternal (-9830)) /\
    Vector2.y (RigidBody.velocity o') <> Number.ofInt 0.
Proof.
  apply (gravity_never_rests lowres (worldWith true gravityDown parkedBody) 1 parkedBody).
  - unfold Display.fits. simpl. lia.
  - reflexivity.
  - reflexivity.
  - reflexivity.
  - reflexivity.
Defined.

(** X9: without gravity the step treats the two axes alike: exchanging x
    and y in the display and in every body before the step is the same as
    exchanging them after it. *)
Theorem top_down_axes_symmetric (d : Display.t) (g : Game) :
  gravityEnabled g = false ->
  objects (simulatePhysics (transposeDisplay d)
             (setObjects g (map transposeBody (objects g))))
  = map transposeBody (objects (simulatePhysics d g)).
Proof.
  intros Hge. rewrite !simulatePhysics_objects.
  cbn [objects gravityEnabled gravitationalForce setObjects].
  rewrite !map_map, Hge. apply map_ext. intros o.
  rewrite !simulateObject_axes. cbv zeta.
  unfold velocityAfterFriction, transposeBody, transposeDisplay, body. fields.
  cbn [Display.getWidth Display.getHeight]. reflexivity.
Qed.

Lemma top_down_axes_symmetric_witness :
  objects (simulatePhysics (transposeDisplay lowres)
             (setObjects driftWorld (map transposeBody (objects driftWorld))))
  = map transposeBody (objects (simulatePhysics lowres driftWorld)).
Proof.
  apply (top_down_axes_symmetric lowres driftWorld). reflexivity.
Defined.

Lemma inside_add_zero (limit : Z) (p : Number.t) :
  0 <= limit <= 32767 -> inside limit p -> Number.add p (Number.ofInt 0) = p.
Proof.
  intros Hl [H0 H1]. unfold Number.le in *. rewrite !ofInt_internal in * by lia.
  destruct p as [z]. unfold Number.add. cbn [Number.getInternal] in *.
  f_equal. rewrite Z.add_0_r. apply to_int32_small. unfold is_int32. lia.
Qed.

Lemma simulateObject_parked (d : Display.t) (gf : Vector2.t) (o : RigidBody.t) :
  Display.fits d -> inBounds d o -> RigidBody.velocity o = Vector2.zero ->
  simulateObject d false gf o = o.
Proof.
  intros [Hw Hh] [Hx Hy] Hv. rewrite simulateObject_axes. cbv zeta.
  unfold velocityAfterFriction. rewrite Hv. fields.
  change (Number.mul (Number.ofInt 0) CoefficientOfFriction) with (Number.ofInt 0).
  rewrite !bounce_inside by (assumption || lia). fields.
  rewrite (inside_add_zero (Display.getWidth d - 8)) by (assumption || lia).
  rewrite (inside_add_zero (Display.getHeight d - 8)) by (assumption || lia).
  destruct o as [[px py] v]. cbn in Hv. subst v. reflexivity.
Qed.

(** X10: without gravity a world whose bodies are all inside the display
    and at rest is a fixed point of the step: any number of steps leaves
    the whole world as it is. *)
Theorem parked_world_is_fixed (d : Display.t) (g : Game) (n : nat) :
  Display.fits d ->
  gravityEnabled g = false ->
  Forall (fun o => inBounds d o /\ RigidBody.velocity o = Vector2.zero) (objects g) ->
  steps d n g = g.
Proof.
  intros Hfit Hge Hall.
  assert (Hone : simulatePhysics d g = g).
  { destruct g as [os ge gf s c]. cbn [gravityEnabled objects] in *. subst ge.
    unfold simulatePhysics, setObjects, arrayLength.
    cbn [objects gravityEnabled gravitationalForce statRenderingEnabled debugCounter].
    f_equal. rewrite (forLoop_updateAt _ os []). cbn [app].
    induction Hall as [| o os [Hin Hv] _ IH]; [reflexivity |].
    cbn [map]. rewrite IH, simulateObject_parked by assumption. reflexivity. }
  induction n as [| n IH]; [reflexivity |].
  cbn [steps]. rewrite Hone. exact IH.
Qed.

Lemma parked_world_is_fixed_witness : steps lowres 5 parkedWorld = parkedWorld.
Proof.
  apply (parked_world_is_fixed lowres parkedWorld 5).
  - unfold Display.fits. simpl. lia.
  - reflexivity.
  - unfold parkedWorld. cbn [objects replicate].
    assert (H : inBounds lowres parkedBody /\ RigidBody.velocity parkedBody = Vector2.zero).
    { split; [vm_compute; repeat split; discriminate | reflexivity]. }
    repeat constructor; apply H.
Defined.

(** X11: a body beyond the left or the right bound, in either gravity
    mode, leaves the step with the opposite of its velocity.x after
    friction, whatever its direction was, at the bound plus that new
    velocity: a body beyond the bound that already moves back in is sent
    out again. *)
Theorem wall_reflects_velocity (d : Display.t) (g : Game) (i : nat) (o : RigidBody.t) :
  Display.fits d ->
  objects g !! i = Some o ->
  exists o',
    objects (simulatePhysics d g) !! i = Some o' /\
    let v := Number.mul
               (if gravityEnabled g
                then Number.add (Vector2.x (RigidBody.velocity o))
                                (Vector2.x (gravitationalForce g))
                else Vector2.x (RigidBody.velocity o))
               CoefficientOfFriction in
    (Number.lt (Point2.x (RigidBody.position o)) (Number.ofInt 0) ->
     Vector2.x (RigidBody.velocity o') = Number.neg v /\
     Point2.x (RigidBody.position o') = Number.add (Number.ofInt 0) (Number.neg v)) /\
    (Number.lt (Number.ofInt (Display.getWidth d - 8)) (Point2.x (RigidBody.position o)) ->
     Vector2.x (RigidBody.velocity o') = Number.neg v /\
     Point2.x (RigidBody.position o')
       = Number.add (Number.ofInt (Display.getWidth d - 8)) (Number.neg v)).
Proof.
  intros [Hw _] Hlook.
  eexists. split; [apply lookup_step, Hlook |].
  rewrite simulateObject_axes. fields. cbv zeta.
  assert (Hv1 : Vector2.x (velocityAfterFriction (gravityEnabled g) (gravitationalForce g)
                             (RigidBody.velocity o))
                = Number.mul
                    (if gravityEnabled g
                     then Number.add (Vector2.x (RigidBody.velocity o))
                                     (Vector2.x (gravitationalForce g))
                     else Vector2.x (RigidBody.velocity o))
                    CoefficientOfFriction).
  { unfold velocityAfterFriction. destruct (gravityEnabled g); reflexivity. }
  rewrite Hv1. split.
  - intros Hlow. rewrite bounce_low by (assumption || lia). split; reflexivity.
  - intros Hhigh.
    assert (Hb : forall v, bounce (Display.getWidth d - 8) (Point2.x (RigidBody.position o), v)
                           = (Number.ofInt (Display.getWidth d - 8), Number.neg v)).
    { intros v. unfold bounce, Number.ltb, Number.gtb, Number.lt in *.
      rewrite !ofInt_internal in * by lia.
      destruct (Z.ltb_spec (Number.getInternal (Point2.x (RigidBody.position o))) (0 * 65536));
        [lia |].
      destruct (Z.ltb_spec ((Display.getWidth d - 8) * 65536)
                  (Number.getInternal (Point2.x (RigidBody.position o))));
        [reflexivity | lia]. }
    rewrite Hb. split; reflexivity.
Qed.

Lemma wall_reflects_velocity_witness :
  exists o',
    objects (simulatePhysics lowres (fst afterSetup)) !! 6%nat = Some o' /\
    Vector2.x (RigidBody.velocity o') = Number.fromInternal 410072 /\
    Point2.x (RigidBody.position o') = Number.fromInternal 7094744.
Proof.
  destruct (wall_reflects_velocity lowres (fst afterSetup) 6
              (body (Number.ofInt 104) (Number.ofInt 37)
                    (Number.fromInternal (-431656)) (Number.fromInternal 277332)))
    as (o' & Ho' & _ & Hright).
  - unfold Display.fits. simpl. lia.
  - vm_compute. reflexivity.
  - exists o'. split; [exact Ho' |].
    apply Hright. vm_compute. reflexivity.
Defined.

(** X12: with gravity enabled, a body beyond the bottom bound whose
    velocity.y at the test, [v], exceeds [RestitutionThreshold] leaves the
    step moving upward with a magnitude of at least [0.3 v] (the truncated
    coefficient) and less than that plus one Epsilon: the rebound is always
    slower than the impact. *)
Theorem rebound_is_damped (d : Display.t) (g : Game) (i : nat) (o : RigidBody.t) :
  Display.fits d ->
  gravityEnabled g = true ->
  objects g !! i = Some o ->
  Number.lt (Number.ofInt (Display.getHeight d - 8)) (Point2.y (RigidBody.position o)) ->
  Number.lt RestitutionThreshold
    (Number.add (Vector2.y (RigidBody.velocity o)) (Vector2.y (gravitationalForce g))) ->
  exists o',
    objects (simulatePhysics d g) !! i = Some o' /\
    let v := Number.getInternal
               (Number.add (Vector2.y (RigidBody.velocity o))
                           (Vector2.y (gravitationalForce g))) in
    let v' := Number.getInternal (Vector2.y (RigidBody.velocity o')) in
    v' < 0 /\ - v' < v /\
    19660 * v <= 65536 * - v' < 19660 * v + 65536.
Proof.
  intros [_ Hh] Hge Hlook Hlow Hv.
  eexists. split; [apply lookup_step, Hlook |].
  rewrite simulateObject_axes, Hge. fields. cbv zeta.
  unfold velocityAfterFriction. fields.
  rewrite settle_high by (assumption || lia). fields.
  set (w := Number.add (Vector2.y (RigidBody.velocity o)) (Vector2.y (gravitationalForce g))) in *.
  pose proof (to_int32_range
                (Number.getInternal (Vector2.y (RigidBody.velocity o))
                 + Number.getInternal (Vector2.y (gravitationalForce g)))) as Hw.
  change (is_int32 (Number.getInternal w)) in Hw.
  unfold Number.lt in Hv. change (Number.getInternal RestitutionThreshold) with 16 in Hv.
  unfold restitutionRule, Number.gtb.
  change (Number.getInternal RestitutionThreshold) with 16.
  destruct (Z.ltb_spec 16 (Number.getInternal w)); [| lia].
  unfold Number.mul, Number.neg, Number.FractionSize. cbn [Number.getInternal].
  change (Number.getInternal CoefficientOfRestitution) with 19660.
  unfold is_int32 in Hw.
  rewrite (to_int32_small (- Number.getInternal w)) by (unfold is_int32; lia).
  rewrite Z.shiftr_div_pow2 by lia. change (2 ^ 16) with 65536.
  pose proof (Z.div_mod (- Number.getInternal w * 19660) 65536 ltac:(lia)) as Hdiv.
  pose proof (Z.mod_pos_bound (- Number.getInternal w * 19660) 65536 ltac:(lia)) as Hmod.
  set (q := - Number.getInternal w * 19660 / 65536) in *.
  rewrite to_int32_small by (unfold is_int32; lia).
  lia.
Qed.

Lemma rebound_is_damped_witness :
  exists o',
    objects (simulatePhysics lowres (worldWith true gravityDown fallingBody)) !! 1%nat = Some o' /\
    Number.getInternal (Vector2.y (RigidBody.velocity o')) < 0.
Proof.
  destruct (rebound_is_damped lowres (worldWith true gravityDown fallingBody) 1 fallingBody)
    as (o' & Ho' & Hneg & _).
  - unfold Display.fits. simpl. lia.
  - reflexivity.
  - reflexivity.
  - vm_compute. reflexivity.
  - vm_compute. reflexivity.
  - exists o'. split; [exact Ho' | exact Hneg].
Defined.

(** ** [Game::randomiseObjects], [Game::setup] and [Game::updateInput] *)

Lemma updateAt_length {A : Type} (i : nat) (f : A -> A) (l : list A) :
  length (updateAt i f l) = length l.
Proof.
  unfold updateAt. destruct (l !! i); [apply length_insert | reflexivity].
Qed.

Lemma updateAt_lookup_ne {A : Type} (i j : nat) (f : A -> A) (l : list A) :
  i <> j -> updateAt i f l !! j = l !! j.
Proof.
  intros Hij. unfold updateAt. destruct (l !! i); [| reflexivity].
  apply list_lookup_insert_ne. exact Hij.
Qed.

Lemma updateAt_lookup_eq {A : Type} (i : nat) (f : A -> A) (l : list A) :
  updateAt i f l !! i = f <$> l !! i.
Proof.
  unfold updateAt. destruct (l !! i) as [a |] eqn:E.
  - rewrite list_lookup_insert_eq; [reflexivity |].
    apply lookup_lt_Some in E. exact E.
  - rewrite E. reflexivity.
Qed.


Lemma randomise_loop_frame (d : Display.t) (ge : bool) (suf : list RigidBody.t) :
  forall (pre : list RigidBody.t) (r : Rand.t),
    exists suf' r',
      forLoop (length suf) (length pre) (randomiseAt d ge) (pre ++ suf, r) = (pre ++ suf', r') /\
      length suf' = length suf /\
      Rand.draws r' = Rand.draws r /\
      Rand.cursor r' = ((if ge then 4 else 6) * length suf + Rand.cursor r)%nat.
Proof.
  induction suf as [| a suf IH]; intros pre r.
  - exists [], r. repeat split. cbn. lia.
  - cbn [length forLoop].
    destruct (randomiseObject_cursor d ge a r) as [Hd Hc].
    assert (Hat : randomiseAt d ge (length pre) (pre ++ a :: suf, r)
                  = ((pre ++ [fst (randomiseObject d ge (a, r))]) ++ suf,
                     snd (randomiseObject d ge (a, r)))).
    { unfold randomiseAt. cbn [fst snd].
      rewrite lookup_app_r by lia.
      replace (length pre - length pre)%nat with 0%nat by lia. cbn [lookup list_lookup].
      destruct (randomiseObject d ge (a, r)) as [a' r1]. cbn [fst snd].
      rewrite insert_app_r_alt by lia.
      replace (length pre - length pre)%nat with 0%nat by lia. cbn.
      rewrite <- app_assoc. reflexivity. }
    rewrite Hat.
    set (a' := fst (randomiseObject d ge (a, r))) in *.
    set (r1 := snd (randomiseObject d ge (a, r))) in *.
    replace (S (length pre)) with (length (pre ++ [a'])) by (rewrite length_app; cbn; lia).
    destruct (IH (pre ++ [a']) r1) as (suf' & r' & Hloop & Hlen & Hd' & Hc').
    exists (a' :: suf'), r'. repeat split.
    + rewrite Hloop, <- app_assoc. reflexivity.
    + cbn. rewrite Hlen. reflexivity.
    + rewrite Hd'. exact Hd.
    + rewrite Hc', Hc. destruct ge; lia.
Qed.

Lemma randomiseObjects_frame (d : Display.t) (g : Game) (r : Rand.t) :
  length (objects (fst (randomiseObjects d (g, r)))) = length (objects g) /\
  gravityEnabled (fst (randomiseObjects d (g, r))) = gravityEnabled g /\
  gravitationalForce (fst (randomiseObjects d (g, r))) = gravitationalForce g.
Proof.
  destruct (randomise_loop_frame d (gravityEnabled g) (objects g) [] r)
    as (os' & r' & Hloop & Hlen & _).
  unfold randomiseObjects, arrayLength. cbn [length app] in Hloop. rewrite Hloop.
  cbn [fst objects setObjects gravityEnabled gravitationalForce]. auto.
Qed.

(** X13: [randomiseObjects] calls [rand()] four times per body with
    gravity enabled and six times per body without, and otherwise leaves
    the generator as it was. *)
Theorem randomise_consumes_rand (d : Display.t) (g : Game) (r : Rand.t) :
  Rand.draws (snd (randomiseObjects d (g, r))) = Rand.draws r /\
  Rand.cursor (snd (randomiseObjects d (g, r)))
  = ((if gravityEnabled g then 4 else 6) * length (objects g) + Rand.cursor r)%nat.
Proof.
  destruct (randomise_loop_frame d (gravityEnabled g) (objects g) [] r)
    as (os' & r' & Hloop & _ & Hd & Hc).
  unfold randomiseObjects, arrayLength. cbn [length app] in Hloop. rewrite Hloop.
  cbn [snd]. split; assumption.
Qed.

(** X14: after [setup], on a display of positive size holding at least the
    player, the player (index 0) stands at the centre of the display with
    velocity zero, every body has its position in
    [[0, displayWidth) x [0, displayHeight)], and the number of bodies is
    unchanged. *)
Theorem setup_places_player (d : Display.t) (g : Game) (r : Rand.t) (o0 : RigidBody.t) :
  0 < Display.getWidth d <= 32767 ->
  0 < Display.getHeight d <= 32767 ->
  Rand.nonneg r ->
  objects g !! 0%nat = Some o0 ->
  objects (fst (setup d (g, r))) !! 0%nat
  = Some (body (Number.ofInt (Z.quot (Display.getWidth d) 2))
               (Number.ofInt (Z.quot (Display.getHeight d) 2))
               (Number.ofInt 0) (Number.ofInt 0)) /\
  length (objects (fst (setup d (g, r)))) = length (objects g) /\
  forall i o',
    objects (fst (setup d (g, r))) !! i = Some o' ->
    Number.le (Number.ofInt 0) (Point2.x (RigidBody.position o')) /\
    Number.lt (Point2.x (RigidBody.position o')) (Number.ofInt (Display.getWidth d)) /\
    Number.le (Number.ofInt 0) (Point2.y (RigidBody.position o')) /\
    Number.lt (Point2.y (RigidBody.position o')) (Number.ofInt (Display.getHeight d)).
Proof.
  intros Hw Hh Hr H0.
  destruct (randomise_loop d (gravityEnabled g) (objects g) Hw Hh [] r Hr)
    as (os' & r' & Hloop & Hall & _).
  unfold setup, randomiseObjects, arrayLength. cbn [length app] in Hloop. rewrite Hloop.
  cbn [fst objects setObjects].
  pose proof (Forall2_length _ _ _ Hall) as Hlen.
  destruct (Forall2_lookup_l _ _ _ _ _ Hall H0) as (o0' & Ho0' & _).
  assert (Hcx : 0 <= Z.quot (Display.getWidth d) 2 < Display.getWidth d).
  { split; [apply Z.quot_pos; lia | apply Z.quot_lt; lia]. }
  assert (Hcy : 0 <= Z.quot (Display.getHeight d) 2 < Display.getHeight d).
  { split; [apply Z.quot_pos; lia | apply Z.quot_lt; lia]. }
  split; [| split].
  - rewrite updateAt_lookup_eq, Ho0'. reflexivity.
  - rewrite updateAt_length. symmetry. exact Hlen.
  - intros i o' Hi. destruct i as [| i].
    + rewrite updateAt_lookup_eq, Ho0' in Hi. cbn in Hi. injection Hi as <-.
      unfold Number.le, Number.lt. fields. rewrite !ofInt_internal by lia. lia.
    + rewrite updateAt_lookup_ne in Hi by lia.
      destruct (Forall2_lookup_r _ _ _ _ _ Hall Hi) as (o & _ & Hrel).
      destruct Hrel as (A & B & C & D & _). auto.
Qed.

Lemma setup_places_player_witness :
  objects (fst afterSetup) !! 0%nat
  = Some (body (Number.ofInt 55) (Number.ofInt 44) (Number.ofInt 0) (Number.ofInt 0)).
Proof.
  refine (proj1 (setup_places_player lowres initialGame sampleRand RigidBody.default _ _ _ _)).
  - simpl. lia.
  - simpl. lia.
  - intros n. apply Z.mod_pos_bound. lia.
  - reflexivity.
Defined.

(** X15: without B, [updateInput] touches nothing but the player's
    velocity: the generator, the flags, the gravity, the number of bodies,
    every other body and the player's position are as before; the player's
    velocity is zero if A is held (emergency stop, whatever directions are
    held) and the old velocity plus the force of the held directions
    otherwise. *)
Theorem control_moves_only_player (d : Display.t) (b : Buttons.t) (g : Game) (r : Rand.t) :
  Buttons.repeatB b = false ->
  snd (updateInput d b (g, r)) = r /\
  gravityEnabled (fst (updateInput d b (g, r))) = gravityEnabled g /\
  gravitationalForce (fst (updateInput d b (g, r))) = gravitationalForce g /\
  statRenderingEnabled (fst (updateInput d b (g, r))) = statRenderingEnabled g /\
  length (objects (fst (updateInput d b (g, r)))) = length (objects g) /\
  (forall i, i <> 0%nat ->
     objects (fst (updateInput d b (g, r))) !! i = objects g !! i) /\
  (forall o, objects g !! 0%nat = Some o ->
     objects (fst (updateInput d b (g, r))) !! 0%nat
     = Some (RigidBody.make (RigidBody.position o)
               (if Buttons.heldA b then Vector2.zero
                else Vector2.add (RigidBody.velocity o) (playerForce b)))).
Proof.
  intros HB. unfold updateInput. rewrite HB. cbn [fst snd objects setObjects
    gravityEnabled gravitationalForce statRenderingEnabled].
  repeat split.
  - destruct (Buttons.heldA b); rewrite ?updateAt_length; reflexivity.
  - intros i Hi. destruct (Buttons.heldA b); rewrite ?updateAt_lookup_ne by lia; reflexivity.
  - intros o Ho. destruct (Buttons.heldA b);
      rewrite ?updateAt_lookup_eq, Ho; reflexivity.
Qed.

Lemma control_moves_only_player_witness :
  objects (fst (updateInput lowres pressStop (driftWorld, sampleRand))) !! 1%nat
  = objects driftWorld !! 1%nat.
Proof.
  destruct (control_moves_only_player lowres pressStop driftWorld sampleRand)
    as (_ & _ & _ & _ & _ & Hothers & _).
  - reflexivity.
  - apply Hothers. lia.
Defined.

Lemma add_zero_valid (v : Number.t) :
  Number.valid v -> Number.add v (Number.ofInt 0) = v.
Proof.
  destruct v as [z]. unfold Number.valid, Number.add. cbn [Number.getInternal].
  intros Hz. f_equal. rewrite Z.add_0_r. apply to_int32_small, Hz.
Qed.

(** X16: without B and without A, opposite directions cancel: when Left
    and Right are both held or both released, and Up and Down likewise
    (in particular when nothing is pressed), [updateInput] leaves the whole
    world as it is, provided the player's velocity is a valid [Number]
    pair. *)
Theorem opposite_inputs_cancel (d : Display.t) (b : Buttons.t) (g : Game) (r : Rand.t) :
  Buttons.repeatB b = false ->
  Buttons.heldA b = false ->
  Buttons.heldLeft b = Buttons.heldRight b ->
  Buttons.heldUp b = Buttons.heldDown b ->
  (forall o, objects g !! 0%nat = Some o ->
     Number.valid (Vector2.x (RigidBody.velocity o)) /\
     Number.valid (Vector2.y (RigidBody.velocity o))) ->
  updateInput d b (g, r) = (g, r).
Proof.
  intros HB HA HLR HUD Hvalid.
  assert (Hf : playerForce b = Vector2.zero).
  { unfold playerForce. rewrite HLR, HUD.
    destruct (Buttons.heldRight b), (Buttons.heldDown b); reflexivity. }
  assert (Hsame : updateAt 0
                    (fun playerObject =>
                       RigidBody.setVelocity playerObject
                         (Vector2.add (RigidBody.velocity playerObject) Vector2.zero))
                    (objects g) = objects g).
  { unfold updateAt.
    destruct (objects g !! 0%nat) as [o |] eqn:Ho; [| reflexivity].
    destruct (Hvalid o eq_refl) as [Vx Vy].
    apply list_insert_id.
    rewrite Ho. f_equal.
    destruct o as [p [vx vy]]. unfold RigidBody.setVelocity, Vector2.add, Vector2.zero.
    cbn [RigidBody.position RigidBody.velocity Vector2.x Vector2.y] in *.
    rewrite !add_zero_valid by assumption. reflexivity. }
  unfold updateInput. rewrite HB, HA, Hf, Hsame.
  destruct g. reflexivity.
Qed.

Lemma opposite_inputs_cancel_witness :
  updateInput lowres pressLeftRight (driftWorld, sampleRand) = (driftWorld, sampleRand).
Proof.
  apply (opposite_inputs_cancel lowres pressLeftRight driftWorld sampleRand).
  - reflexivity.
  - reflexivity.
  - reflexivity.
  - reflexivity.
  - intros o Ho. injection Ho as <-.
    split; unfold Number.valid, is_int32; vm_compute; split; (discriminate || reflexivity).
Defined.

(** X17: in the playing-around mode (B held, A not held) the toggles are
    involutions: the same buttons in two successive calls of [updateInput]
    bring back the gravity flag, the gravity direction and the rendering
    flag, and the bodies and the generator are never touched. *)
Theorem tools_toggle_twice (d : Display.t) (b : Buttons.t) (g : Game) (r : Rand.t) :
  Buttons.repeatB b = true ->
  Buttons.heldA b = false ->
  gravitationalForce g = gravityDown \/ gravitationalForce g = gravityUp ->
  updateInput d b (updateInput d b (g, r)) = (g, r) /\
  objects (fst (updateInput d b (g, r))) = objects g /\
  snd (updateInput d b (g, r)) = r.
Proof.
  intros HB HA Hgf. unfold updateInput. rewrite HB, HA.
  destruct g as [os ge gf s c]. cbn [gravitationalForce] in Hgf.
  destruct (Buttons.heldDown b), (Buttons.heldUp b), (Buttons.heldLeft b);
    cbn [fst snd objects gravityEnabled gravitationalForce statRenderingEnabled debugCounter
         setGravityEnabled setGravitationalForce setStatRenderingEnabled];
    rewrite ?negb_involutive;
    (split; [| split; reflexivity]);
    destruct Hgf; subst gf; reflexivity.
Qed.

Lemma tools_toggle_twice_witness :
  updateInput lowres pressInvert (updateInput lowres pressInvert (driftWorld, sampleRand))
  = (driftWorld, sampleRand).
Proof.
  refine (proj1 (tools_toggle_twice lowres pressInvert driftWorld sampleRand _ _ _)).
  - reflexivity.
  - reflexivity.
  - left. reflexivity.
Defined.

Lemma updateInput_wellShaped (d : Display.t) (b : Buttons.t) (st : Game * Rand.t) :
  wellShaped (fst st) -> wellShaped (fst (updateInput d b st)).
Proof.
  destruct st as [g r]. cbn [fst]. intros [Hlen Hgf].
  destruct (randomiseObjects_frame d g r) as (Rlen & _ & Rgf).
  unfold updateInput.
  destruct (Buttons.repeatB b).
  - assert (Hst : wellShaped (fst (if Buttons.heldA b then randomiseObjects d (g, r) else (g, r)))).
    { destruct (Buttons.heldA b); cbn [fst]; split; congruence. }
    destruct (if Buttons.heldA b then randomiseObjects d (g, r) else (g, r)) as [g1 r1].
    cbn [fst] in Hst. destruct Hst as [Hlen1 Hgf1].
    destruct (Buttons.heldDown b), (Buttons.heldUp b), (Buttons.heldLeft b);
      cbn [fst]; split; cbn [objects gravitationalForce setGravityEnabled
                              setGravitationalForce setStatRenderingEnabled];
      try assumption;
      destruct Hgf1 as [-> | ->]; (left; reflexivity) || (right; reflexivity).
  - cbn [fst]. split; cbn [objects gravitationalForce setObjects]; [| exact Hgf].
    destruct (Buttons.heldA b); rewrite ?updateAt_length; exact Hlen.
Qed.

(** X18: every world the program reaches, after [setup] and after any
    number of frames with any inputs, has exactly eight bodies and a
    gravitational force that is [(0, CoefficientOfGravity)] or its
    opposite. *)
Theorem reachable_world_shape (d : Display.t) (st : Game * Rand.t) :
  reachable d st ->
  length (objects (fst st)) = 8%nat /\
  (gravitationalForce (fst st) = gravityDown \/ gravitationalForce (fst st) = gravityUp).
Proof.
  induction 1 as [r Hr | b st Hst IH].
  - destruct (randomiseObjects_frame d initialGame r) as (Rlen & _ & Rgf).
    unfold setup. destruct (randomiseObjects d (initialGame, r)) as [g1 r1].
    cbn [fst objects gravitationalForce setObjects] in *. split.
    + rewrite updateAt_length. exact Rlen.
    + left. exact Rgf.
  - apply (updateInput_wellShaped d b) in IH.
    unfold loop. destruct (updateInput d b st) as [g1 r1]. cbn [fst] in *.
    destruct IH as [Hlen Hgf].
    assert (Hstep : wellShaped (simulatePhysics d g1)).
    { split; [rewrite simulatePhysics_objects, length_map; exact Hlen | exact Hgf]. }
    destruct (statRenderingEnabled (simulatePhysics d g1)); exact Hstep.
Qed.

Lemma reachable_world_shape_witness :
  length (objects (fst risingWorld)) = 8%nat /\
  (gravitationalForce (fst risingWorld) = gravityDown \/
   gravitationalForce (fst risingWorld) = gravityUp).
Proof.
  apply (reachable_world_shape lowres risingWorld).
  apply reachable_run, reachable_afterSetup.
Defined.

(** X19: with gravity enabled, a body above the top bound whose velocity.y
    at the test does not exceed [RestitutionThreshold] (every rising body,
    however fast) is stopped: it leaves the step at [position.y = 0] with
    [velocity.y = 0]. *)
Theorem top_bound_stops_rising_body (d : Display.t) (g : Game) (i : nat) (o : RigidBody.t) :
  Display.fits d ->
  gravityEnabled g = true ->
  objects g !! i = Some o ->
  Number.lt (Point2.y (RigidBody.position o)) (Number.ofInt 0) ->
  Number.le (Number.add (Vector2.y (RigidBody.velocity o)) (Vector2.y (gravitationalForce g)))
            RestitutionThreshold ->
  exists o',
    objects (simulatePhysics d g) !! i = Some o' /\
    Vector2.y (RigidBody.velocity o') = Number.ofInt 0 /\
    Point2.y (RigidBody.position o') = Number.ofInt 0.
Proof.
  intros [_ Hh] Hge Hlook Htop Hv.
  eexists. split; [apply lookup_step, Hlook |].
  rewrite simulateObject_axes, Hge. fields. cbv zeta.
  unfold velocityAfterFriction. fields.
  rewrite settle_low by (assumption || lia). fields.
  unfold restitutionRule, Number.gtb. unfold Number.le in Hv.
  destruct (Z.ltb_spec (Number.getInternal RestitutionThreshold)
              (Number.getInternal
                 (Number.add (Vector2.y (RigidBody.velocity o))
                    (Vector2.y (gravitationalForce g))))); [lia |].
  split; reflexivity.
Qed.

Lemma top_bound_stops_rising_body_witness :
  exists o',
    objects (simulatePhysics lowres (fst risingWorld)) !! 7%nat = Some o' /\
    Vector2.y (RigidBody.velocity o') = Number.ofInt 0 /\
    Point2.y (RigidBody.position o') = Number.ofInt 0.
Proof.
  apply (top_bound_stops_rising_body lowres (fst risingWorld) 7
           (body (Number.fromInternal 4822710) (Number.fromInternal (-90863))
                 (Number.fromInternal (-29263)) (Number.fromInternal (-215973)))).
  - unfold Display.fits. simpl. lia.
  - vm_compute. reflexivity.
  - vm_compute. reflexivity.
  - vm_compute. reflexivity.
  - unfold Number.le. vm_compute. discriminate.
Defined.

(** X20: the emergency stop holds the player in place: in a frame without
    B and with A held, without gravity, a player inside the display ends
    the frame where it was, with velocity zero, whatever its velocity and
    the held directions were. *)
Theorem emergency_stop_holds_player
  (d : Display.t) (b : Buttons.t) (g : Game) (r : Rand.t) (o : RigidBody.t) :
  Display.fits d ->
  Buttons.repeatB b = false ->
  Buttons.heldA b = true ->
  gravityEnabled g = false ->
  objects g !! 0%nat = Some o ->
  inBounds d o ->
  objects (fst (loop d b (g, r))) !! 0%nat
  = Some (RigidBody.make (RigidBody.position o) Vector2.zero).
Proof.
  intros Hfit HB HA Hge Ho Hin.
  assert (Hin' : inBounds d (RigidBody.make (RigidBody.position o) Vector2.zero)) by exact Hin.
  unfold loop, updateInput. rewrite HB, HA.
  set (os := updateAt 0 _ (updateAt 0 _ (objects g))).
  assert (Hos : os !! 0%nat = Some (RigidBody.make (RigidBody.position o) Vector2.zero)).
  { unfold os. rewrite !updateAt_lookup_eq, Ho. reflexivity. }
  assert (Hstep : objects (simulatePhysics d (setObjects g os)) !! 0%nat
                  = Some (RigidBody.make (RigidBody.position o) Vector2.zero)).
  { rewrite simulatePhysics_lookup. cbn [objects gravityEnabled gravitationalForce setObjects].
    rewrite Hos, Hge. cbn [fmap option_fmap option_map].
    rewrite simulateObject_parked by (assumption || reflexivity). reflexivity. }
  destruct (statRenderingEnabled (simulatePhysics d (setObjects g os))); exact Hstep.
Qed.

Lemma emergency_stop_holds_player_witness :
  objects (fst (loop lowres pressStop
                  (setObjects driftWorld (driftBody :: replicate 7 RigidBody.default),
                   sampleRand))) !! 0%nat
  = Some (RigidBody.make (RigidBody.position driftBody) Vector2.zero).
Proof.
  apply (emergency_stop_holds_player lowres pressStop
           (setObjects driftWorld (driftBody :: replicate 7 RigidBody.default))
           sampleRand driftBody).
  - unfold Display.fits. simpl. lia.
  - reflexivity.
  - reflexivity.
  - reflexivity.
  - reflexivity.
  - vm_compute. repeat split; discriminate.
Defined.
